(** * Rent management: ledger store, due calculator, month generator,
      reminder formatter and status transitions of [app.py].

    Python values are embedded as follows.
    - [str] is a Rocq [string] holding the UTF-8 encoding of the text (the
      form SQLite stores it in, and the form [urllib.parse.quote] works on).
    - the [Float] columns are IEEE binary64 values, Rocq's primitive [float].
    - integer primary keys are [Z]; SQLite gives a new row the key
      [max + 1] of its table ([1] in an empty table).
    - a table is the list of its rows in insertion order.
    - the clock ([datetime.today], [datetime.utcnow]) is an argument. *)

From Stdlib Require Import List String Ascii ZArith Lia Bool Floats.
From Stdlib Require Import DecimalString.
From Stdlib Require DecimalPos DecimalZ.
Import ListNotations.
Open Scope string_scope.

(** ** Python strings *)

Module PyStr.

Definition nl : string := String "010" EmptyString.

Definition code (c : ascii) : nat := nat_of_ascii c.

Definition between (lo hi n : nat) : bool := (lo <=? n)%nat && (n <=? hi)%nat.

(** [str.isspace] on the one-byte code points: U+0009..U+000D,
    U+001C..U+001F and U+0020. *)
Definition is_space1 (c : ascii) : bool :=
  between 9 13 (code c) || between 28 32 (code c).

(** The two-byte whitespace code points U+0085 and U+00A0. *)
Definition is_space2 (c1 c2 : ascii) : bool :=
  (code c1 =? 194)%nat && ((code c2 =? 133)%nat || (code c2 =? 160)%nat).

(** The three-byte whitespace code points: U+1680, U+2000..U+200A, U+2028,
    U+2029, U+202F, U+205F and U+3000. *)
Definition is_space3 (c1 c2 c3 : ascii) : bool :=
  ((code c1 =? 225)%nat && (code c2 =? 154)%nat && (code c3 =? 128)%nat)
  || ((code c1 =? 226)%nat && (code c2 =? 128)%nat
      && (between 128 138 (code c3) || between 168 169 (code c3)
          || (code c3 =? 175)%nat))
  || ((code c1 =? 226)%nat && (code c2 =? 129)%nat && (code c3 =? 159)%nat)
  || ((code c1 =? 227)%nat && (code c2 =? 128)%nat && (code c3 =? 128)%nat).

(** [str.lstrip()] on the encoded text. *)
Fixpoint lstrip (s : list ascii) : list ascii :=
  match s with
  | [] => []
  | c1 :: r1 =>
    if is_space1 c1 then lstrip r1 else
    match r1 with
    | [] => s
    | c2 :: r2 =>
      if is_space2 c1 c2 then lstrip r2 else
      match r2 with
      | [] => s
      | c3 :: r3 => if is_space3 c1 c2 c3 then lstrip r3 else s
      end
    end
  end.

(** [str.rstrip()], run over the reversed text: the bytes of a code point
    are met last byte first. *)
Fixpoint rstrip_rev (s : list ascii) : list ascii :=
  match s with
  | [] => []
  | c1 :: r1 =>
    if is_space1 c1 then rstrip_rev r1 else
    match r1 with
    | [] => s
    | c2 :: r2 =>
      if is_space2 c2 c1 then rstrip_rev r2 else
      match r2 with
      | [] => s
      | c3 :: r3 => if is_space3 c3 c2 c1 then rstrip_rev r3 else s
      end
    end
  end.

Definition rstrip (s : list ascii) : list ascii := rev (rstrip_rev (rev s)).

(** [s.strip()] *)
Definition strip (s : string) : string :=
  string_of_list_ascii (rstrip (lstrip (list_ascii_of_string s))).

(** [s.startswith(p)] *)
Definition startswith (s p : string) : bool := String.prefix p s.

(** [str(n)] for an [int]. *)
Definition str_int (z : Z) : string := NilZero.string_of_int (Z.to_int z).

(** *** [urllib.parse.quote] *)

Definition is_alnum (c : ascii) : bool :=
  between 48 57 (code c) || between 65 90 (code c) || between 97 122 (code c).

(** [_ALWAYS_SAFE] together with the default [safe='/']. *)
Definition is_safe (c : ascii) : bool :=
  is_alnum c
  || (code c =? 95)%nat || (code c =? 46)%nat || (code c =? 45)%nat
  || (code c =? 126)%nat || (code c =? 47)%nat.

Definition hex_digit (n : nat) : ascii :=
  if (n <? 10)%nat then ascii_of_nat (48 + n) else ascii_of_nat (55 + n).

(** ['%{:02X}'.format(byte)] *)
Definition percent (c : ascii) : string :=
  String "%" (String (hex_digit (code c / 16))
             (String (hex_digit (code c mod 16)) EmptyString)).

Definition quote_byte (c : ascii) : string :=
  if is_safe c then String c EmptyString else percent c.

Fixpoint quote (s : string) : string :=
  match s with
  | EmptyString => EmptyString
  | String c r => quote_byte c ++ quote r
  end.

(** [sub in s] *)
Definition contains (s sub : string) : Prop :=
  exists pre post, s = pre ++ sub ++ post.

Definition is_digit (c : ascii) : bool := between 48 57 (code c).

Fixpoint all_digits (s : string) : bool :=
  match s with
  | EmptyString => true
  | String c r => is_digit c && all_digits r
  end.

End PyStr.

(** ** Python numbers met by [sum] *)

Module PyNum.

(** [sum] starts from the [int] 0 and adds the items from left to right, so
    its result is an [int] only when there was no item. (CPython 3.12 and
    later compensate the rounding of [float] sums; the two agree whenever
    the partial sums are exact.) *)
Inductive t : Type :=
  | PyInt (z : Z)
  | PyFloat (f : float).

(** [float(z)] for the integers that occur here. *)
Definition float_of_Z (z : Z) : float :=
  match z with
  | Z0 => 0%float
  | Zpos _ => PrimFloat.of_uint63 (Uint63.of_Z z)
  | Zneg _ => PrimFloat.opp (PrimFloat.of_uint63 (Uint63.of_Z (- z)))
  end.

Definition to_float (a : t) : float :=
  match a with
  | PyInt z => float_of_Z z
  | PyFloat f => f
  end.

(** [a + x] where [x] is a [float]. *)
Definition add_float (a : t) (x : float) : t :=
  PyFloat (PrimFloat.add (to_float a) x).

(** [sum(xs)] *)
Definition sum (xs : list float) : t := fold_left add_float xs (PyInt 0).

(** [a == b] *)
Definition eqb (a b : t) : bool :=
  match a, b with
  | PyInt x, PyInt y => (x =? y)%Z
  | _, _ => PrimFloat.eqb (to_float a) (to_float b)
  end.

End PyNum.

(** ** Models *)

(** [datetime] values are only stored and cleared: a time stamp. *)
Definition datetime : Type := Z.

Module Tenant.
Record t : Type := mk {
  id : Z;
  name : string;
  phone : string;
  room_no : string;
  monthly_rent : float
}.
End Tenant.

Module RentDue.
Record t : Type := mk {
  id : Z;
  tenant_id : Z;
  month : string;
  amount : float;
  status : string;
  paid_date : option datetime
}.
End RentDue.

(** The [tenant] and [rent_due] tables. The [admin] table is read and
    written by the login routes only and is left out. What the engine may
    refuse on top (a key past the 64-bit range, a NaN in a NOT NULL column)
    aborts the request and leaves the tables as they were. *)
Record db : Type := mkdb {
  tenants : list Tenant.t;
  rent_dues : list RentDue.t
}.

Definition empty_db : db := mkdb [] [].

(** The key SQLite assigns to [INTEGER PRIMARY KEY] on insert. *)
Definition next_id (ids : list Z) : Z := (1 + fold_right Z.max 0 ids)%Z.

(** [db.session.add(RentDue(tenant_id=.., month=.., amount=.., status=..))]
    followed by the flush that the next query or the commit performs. *)
Definition add_due (tenant_id : Z) (month : string) (amount : float)
    (status : string) (st : db) : db :=
  mkdb (tenants st)
       (rent_dues st ++
        [RentDue.mk (next_id (map RentDue.id (rent_dues st)))
                    tenant_id month amount status None]).

(** [RentDue.query.filter_by(tenant_id=.., month=..).first()] *)
Definition due_for (tenant_id : Z) (month : string) (st : db)
    : option RentDue.t :=
  find (fun d => (RentDue.tenant_id d =? tenant_id)%Z
                 && (RentDue.month d =? month)%string)
       (rent_dues st).

(** [Tenant.query.get(tenant_id)] and [RentDue.query.get(due_id)], for the
    keys SQLite can hold and look up (below 2^63; a larger key makes the
    lookup raise, and no table has such a row). *)
Definition get_tenant (tenant_id : Z) (st : db) : option Tenant.t :=
  find (fun t => (Tenant.id t =? tenant_id)%Z) (tenants st).

Definition get_due (due_id : Z) (st : db) : option RentDue.t :=
  find (fun d => (RentDue.id d =? due_id)%Z) (rent_dues st).

(** ** Helpers *)

Definition build_whatsapp_link (phone message : string) : string :=
  let phone := PyStr.strip phone in
  let phone := if negb (PyStr.startswith phone "91") then "91" ++ phone
               else phone in
  let encoded_msg := PyStr.quote message in
  "https://wa.me/" ++ phone ++ "?text=" ++ encoded_msg.

Definition calculate_due_for_tenant (tenant_id : Z) (st : db)
    : nat * PyNum.t * list RentDue.t :=
  let dues := filter (fun d => (RentDue.tenant_id d =? tenant_id)%Z
                               && (RentDue.status d =? "unpaid")%string)
                     (rent_dues st) in
  let months_due := List.length dues in
  let total_due := PyNum.sum (map RentDue.amount dues) in
  (months_due, total_due, dues).

(** One turn of the loop of [generate_current_month_rent]. The session
    flushes pending rows before each query, so the existence check sees the
    rows added in earlier turns. *)
Definition generate_for (this_month : string) (st : db) (t : Tenant.t) : db :=
  match due_for (Tenant.id t) this_month st with
  | Some _ => st
  | None => add_due (Tenant.id t) this_month (Tenant.monthly_rent t)
                    "unpaid" st
  end.

(** [this_month] is [current_month_str()]. *)
Definition generate_current_month_rent (this_month : string) (st : db) : db :=
  fold_left (generate_for this_month) (tenants st) st.

Section Reminder.

(** [repr] of a [float], as an f-string renders it. *)
Variable float_repr : float -> string.

Definition str_num (a : PyNum.t) : string :=
  match a with
  | PyNum.PyInt z => PyStr.str_int z
  | PyNum.PyFloat f => float_repr f
  end.

Definition reminder_message (t : Tenant.t) (months_due : nat)
    (total_due : PyNum.t) : string :=
  "Hello " ++ Tenant.name t ++ "," ++ PyStr.nl ++ PyStr.nl
  ++ "Your rent is overdue." ++ PyStr.nl
  ++ "Room No: " ++ Tenant.room_no t ++ PyStr.nl
  ++ "Pending Months: " ++ PyStr.str_int (Z.of_nat months_due) ++ PyStr.nl
  ++ "Total Due Amount: ₹" ++ str_num total_due ++ PyStr.nl ++ PyStr.nl
  ++ "Please pay as soon as possible." ++ PyStr.nl
  ++ "- Rent Management".

Definition get_whatsapp_reminder_link (tenant : Tenant.t) (st : db)
    : option string :=
  let '(months_due, total_due, _) :=
    calculate_due_for_tenant (Tenant.id tenant) st in
  if (months_due =? 0)%nat then None
  else Some (build_whatsapp_link (Tenant.phone tenant)
               (reminder_message tenant months_due total_due)).

End Reminder.

(** ** Routes *)

(** [session] holds at most the key ["admin_id"]. *)
Definition session : Type := option Z.

Definition logged_in (s : session) : bool :=
  match s with Some _ => true | None => false end.

Inductive response : Type :=
  | Redirect (url : string)
  | NotFound
  | Render (template : string)
  | Body (text : string).

(** The fields of a posted tenant form; [f_monthly_rent] is the value
    [float(request.form["monthly_rent"])]. A form that [float] rejects
    raises before anything is committed and is not a request here. *)
Record tenant_form : Type := mkform {
  f_name : string;
  f_phone : string;
  f_room_no : string;
  f_monthly_rent : float
}.

(** [post] is [None] for a GET request. The rent of a posted form is
    stored as it is given, which is what SQLite does for every float but
    two: a NaN is refused by the NOT NULL column (the request fails and
    nothing is stored) and the negative zero reads back as 0.0. The stores
    the application reaches are among those reached here. *)
Definition add_tenant (s : session) (post : option tenant_form) (st : db)
    : response * db :=
  if negb (logged_in s) then (Redirect "/login", st) else
  match post with
  | Some f =>
    let t := Tenant.mk (next_id (map Tenant.id (tenants st)))
                       (f_name f) (f_phone f) (f_room_no f)
                       (f_monthly_rent f) in
    (Redirect "/tenants", mkdb (tenants st ++ [t]) (rent_dues st))
  | None => (Render "add_tenant.html", st)
  end.

(** As in [add_tenant], the rent of the form is stored as it is given. *)
Definition edit_tenant (s : session) (tenant_id : Z)
    (post : option tenant_form) (st : db) : response * db :=
  if negb (logged_in s) then (Redirect "/login", st) else
  match get_tenant tenant_id st with
  | None => (NotFound, st)
  | Some _ =>
    match post with
    | Some f =>
      let upd t :=
        if (Tenant.id t =? tenant_id)%Z
        then Tenant.mk (Tenant.id t) (f_name f) (f_phone f) (f_room_no f)
                       (f_monthly_rent f)
        else t in
      (Redirect "/tenants", mkdb (map upd (tenants st)) (rent_dues st))
    | None => (Render "edit_tenant.html", st)
    end
  end.

(** [db.session.delete(tenant)] with the [dues] relationship's
    [cascade="all, delete-orphan"]: the rows of [tenant.dues] go first, then
    the tenant. *)
Definition delete_tenant (s : session) (tenant_id : Z) (st : db)
    : response * db :=
  if negb (logged_in s) then (Redirect "/login", st) else
  match get_tenant tenant_id st with
  | None => (NotFound, st)
  | Some _ =>
    (Redirect "/tenants",
     mkdb (filter (fun t => negb (Tenant.id t =? tenant_id)%Z) (tenants st))
          (filter (fun d => negb (RentDue.tenant_id d =? tenant_id)%Z)
                  (rent_dues st)))
  end.

Definition generate_current_month (s : session) (this_month : string)
    (st : db) : response * db :=
  if negb (logged_in s) then (Redirect "/login", st) else
  (Redirect "/tenants", generate_current_month_rent this_month st).

Definition dues_url (tenant_id : Z) : string :=
  "/tenant/" ++ PyStr.str_int tenant_id ++ "/dues".

(** Writes the fields of the row [due_id] back to the table. *)
Definition update_due (due_id : Z) (f : RentDue.t -> RentDue.t) (st : db)
    : db :=
  mkdb (tenants st)
       (map (fun d => if (RentDue.id d =? due_id)%Z then f d else d)
            (rent_dues st)).

Definition set_paid (now : datetime) (d : RentDue.t) : RentDue.t :=
  RentDue.mk (RentDue.id d) (RentDue.tenant_id d) (RentDue.month d)
             (RentDue.amount d) "paid" (Some now).

Definition set_unpaid (d : RentDue.t) : RentDue.t :=
  RentDue.mk (RentDue.id d) (RentDue.tenant_id d) (RentDue.month d)
             (RentDue.amount d) "unpaid" None.

(** [now] is [datetime.utcnow()]. *)
Definition mark_rent_paid (s : session) (now : datetime) (due_id : Z)
    (st : db) : response * db :=
  if negb (logged_in s) then (Redirect "/login", st) else
  match get_due due_id st with
  | None => (NotFound, st)
  | Some due =>
    let st' := if (RentDue.status due =? "unpaid")%string
               then update_due due_id (set_paid now) st
               else st in
    (Redirect (dues_url (RentDue.tenant_id due)), st')
  end.

Definition mark_rent_unpaid (s : session) (due_id : Z) (st : db)
    : response * db :=
  if negb (logged_in s) then (Redirect "/login", st) else
  match get_due due_id st with
  | None => (NotFound, st)
  | Some due =>
    let st' := if (RentDue.status due =? "paid")%string
               then update_due due_id set_unpaid st
               else st in
    (Redirect (dues_url (RentDue.tenant_id due)), st')
  end.

(** One turn of the second loop of [generate_fake_3_months]. *)
Definition fake_for (tenant_id : Z) (rent : float) (st : db) (m : string)
    : db :=
  match due_for tenant_id m st with
  | Some _ => st
  | None => add_due tenant_id m rent "unpaid" st
  end.

(** [fake_months] is the list the first loop builds from [datetime.today()].
    The route has no session check. *)
Definition generate_fake_3_months (tenant_id : Z) (fake_months : list string)
    (st : db) : response * db :=
  match get_tenant tenant_id st with
  | None => (NotFound, st)
  | Some tenant =>
    (Body ("Fake 3 months due added for tenant " ++ Tenant.name tenant),
     fold_left (fake_for tenant_id (Tenant.monthly_rent tenant))
               fake_months st)
  end.

(** ** The application as a transition system *)

(** The requests that write to the two tables, each with the values the
    clock gave it; [Scheduled] is the job [start_scheduler] registers. *)
Inductive request : Type :=
  | AddTenant (s : session) (post : option tenant_form)
  | EditTenant (s : session) (tenant_id : Z) (post : option tenant_form)
  | DeleteTenant (s : session) (tenant_id : Z)
  | GenerateCurrentMonth (s : session) (this_month : string)
  | Scheduled (this_month : string)
  | MarkRentPaid (s : session) (now : datetime) (due_id : Z)
  | MarkRentUnpaid (s : session) (due_id : Z)
  | GenerateFake3Months (tenant_id : Z) (fake_months : list string).

Definition handle (r : request) (st : db) : db :=
  match r with
  | AddTenant s post => snd (add_tenant s post st)
  | EditTenant s tid post => snd (edit_tenant s tid post st)
  | DeleteTenant s tid => snd (delete_tenant s tid st)
  | GenerateCurrentMonth s m => snd (generate_current_month s m st)
  | Scheduled m => generate_current_month_rent m st
  | MarkRentPaid s now did => snd (mark_rent_paid s now did st)
  | MarkRentUnpaid s did => snd (mark_rent_unpaid s did st)
  | GenerateFake3Months tid ms => snd (generate_fake_3_months tid ms st)
  end.

(** The stores the application reaches from the tables [db.create_all()]
    makes. *)
Inductive reachable : db -> Prop :=
  | reach_init : reachable empty_db
  | reach_step st r : reachable st -> reachable (handle r st).

(** Running a function [n] times. *)
Fixpoint repeat_run (n : nat) (f : db -> db) (st : db) : db :=
  match n with
  | O => st
  | S k => f (repeat_run k f st)
  end.

(** ** The calendar *)

Module Date.

(** A [date], or the date part of a [datetime]. *)
Record t : Type := mk {
  year : Z;
  month : Z;
  day : Z
}.

Definition is_leap (y : Z) : bool :=
  ((y mod 4 =? 0) && (negb (y mod 100 =? 0) || (y mod 400 =? 0)))%Z.

Definition days_in_month (y m : Z) : Z :=
  if (m =? 2)%Z then (if is_leap y then 29 else 28)%Z
  else if ((m =? 4) || (m =? 6) || (m =? 9) || (m =? 11))%Z then 30%Z
  else 31%Z.

(** The dates Python can hold: 0001-01-01 to 9999-12-31. *)
Definition valid (d : t) : Prop :=
  (1 <= year d <= 9999 /\ 1 <= month d <= 12
   /\ 1 <= day d <= days_in_month (year d) (month d))%Z.

(** [d.replace(day=n)] *)
Definition replace_day (d : t) (n : Z) : t := mk (year d) (month d) n.

(** [d - timedelta(days=1)]; [None] is the [OverflowError] below
    0001-01-01. *)
Definition yesterday (d : t) : option t :=
  if (1 <? day d)%Z then Some (mk (year d) (month d) (day d - 1))
  else if (1 <? month d)%Z
       then Some (mk (year d) (month d - 1)
                     (days_in_month (year d) (month d - 1)))
  else if (1 <? year d)%Z then Some (mk (year d - 1) 12 31)
  else None.

(** [d - timedelta(days=n)]: the date [n] days earlier in the proleptic
    Gregorian calendar. *)
Fixpoint minus_days (n : nat) (d : t) : option t :=
  match n with
  | O => Some d
  | S k => match yesterday d with
           | Some p => minus_days k p
           | None => None
           end
  end.

Fixpoint zeros (n : nat) : string :=
  match n with
  | O => EmptyString
  | S k => String "0" (zeros k)
  end.

(** A number printed with leading zeros up to [width] digits. *)
Definition zero_padded (width : nat) (z : Z) : string :=
  zeros (width - String.length (PyStr.str_int z)) ++ PyStr.str_int z.

(** [d.strftime("%Y-%m")]. (Before Python 3.13 the C library of Linux
    printed years below 1000 without the leading zeros.) *)
Definition strftime_Y_m (d : t) : string :=
  zero_padded 4 (year d) ++ "-" ++ zero_padded 2 (month d).

End Date.

(** [current_month_str()] when [datetime.today()] is [today]. *)
Definition current_month_str (today : Date.t) : string :=
  Date.strftime_Y_m today.

(** The values of all the turns of a loop, unless one of them raised. *)
Fixpoint all_or_raise {A : Type} (l : list (option A)) : option (list A) :=
  match l with
  | [] => Some []
  | None :: _ => None
  | Some x :: r => match all_or_raise r with
                   | Some xs => Some (x :: xs)
                   | None => None
                   end
  end.

(** The first loop of [generate_fake_3_months] when [datetime.today()] is
    [today]: the list [fake_months]. *)
Definition fake_months (today : Date.t) : option (list string) :=
  all_or_raise
    (map (fun i =>
            option_map Date.strftime_Y_m
              (Date.minus_days (30 * (i + 1)) (Date.replace_day today 1)))
         (seq 0 3)).

(** ** The dashboard *)

(** [a + b] for the numbers [sum] returns. *)
Definition py_add (a b : PyNum.t) : PyNum.t :=
  match a, b with
  | PyNum.PyInt x, PyNum.PyInt y => PyNum.PyInt (x + y)
  | _, _ => PyNum.PyFloat (PrimFloat.add (PyNum.to_float a) (PyNum.to_float b))
  end.

(** An entry of [tenant_due_list]. *)
Record due_entry : Type := mk_entry {
  e_tenant : Tenant.t;
  e_months_due : nat;
  e_total_due : PyNum.t;
  e_whatsapp_link : option string
}.

Section Dashboard.

Variable float_repr : float -> string.

(** One turn of the loop of [dashboard] over the tenants; the state is
    [(total_due_amount, tenants_with_due, tenant_due_list)]. *)
Definition dashboard_turn (st : db) (acc : PyNum.t * nat * list due_entry)
    (t : Tenant.t) : PyNum.t * nat * list due_entry :=
  let '(total_due_amount, tenants_with_due, tenant_due_list) := acc in
  let '(months_due, total_due, _) :=
    calculate_due_for_tenant (Tenant.id t) st in
  let total_due_amount := py_add total_due_amount total_due in
  if (0 <? months_due)%nat
  then (total_due_amount, S tenants_with_due,
        (tenant_due_list
         ++ [mk_entry t months_due total_due
                      (get_whatsapp_reminder_link float_repr t st)])%list)
  else (total_due_amount, tenants_with_due, tenant_due_list).

(** The loop of [dashboard], up to the sort of [tenant_due_list]. *)
Definition dashboard_loop (st : db) : PyNum.t * nat * list due_entry :=
  fold_left (dashboard_turn st) (tenants st) (PyNum.PyInt 0, 0%nat, []).

End Dashboard.

(** * Vocabulary of the properties *)

(** What a guarded route answers: [r] to an admin, the login page
    otherwise. *)
Definition after_login (s : session) (r : response) : response :=
  if logged_in s then r else Redirect "/login".

(** [RentDue.query.filter_by(tenant_id=.., month=..).all()] *)
Definition dues_of (tenant_id : Z) (month : string) (st : db)
    : list RentDue.t :=
  filter (fun d => (RentDue.tenant_id d =? tenant_id)%Z
                   && (RentDue.month d =? month)%string)
         (rent_dues st).

(** [RentDue.query.filter_by(tenant_id=..).all()], the rows of
    [tenant.dues]. *)
Definition dues_by_tenant (tenant_id : Z) (st : db) : list RentDue.t :=
  filter (fun d => (RentDue.tenant_id d =? tenant_id)%Z) (rent_dues st).

(** The status is one of the two literals and the paid date is there
    exactly for "paid". *)
Definition status_ok (d : RentDue.t) : Prop :=
  (RentDue.status d = "unpaid" /\ RentDue.paid_date d = None)
  \/ (RentDue.status d = "paid" /\ RentDue.paid_date d <> None).

(** At most one RentDue per (tenant, month). *)
Definition month_unique (st : db) : Prop :=
  forall tid m, (List.length (dues_of tid m st) <= 1)%nat.

(** Every RentDue belongs to a tenant of the store. *)
Definition no_orphans (st : db) : Prop :=
  forall d, In d (rent_dues st) ->
            In (RentDue.tenant_id d) (map Tenant.id (tenants st)).

(** Primary keys are unique, and the three properties above. *)
Record invariant (st : db) : Prop := mkinv {
  inv_tenant_pk : NoDup (map Tenant.id (tenants st));
  inv_due_pk : NoDup (map RentDue.id (rent_dues st));
  inv_status : Forall status_ok (rent_dues st);
  inv_month : month_unique st;
  inv_owner : no_orphans st
}.

(** An update that leaves the key, the owner and the month alone. *)
Definition keeps_key (f : RentDue.t -> RentDue.t) : Prop :=
  forall d, RentDue.id (f d) = RentDue.id d
            /\ RentDue.tenant_id (f d) = RentDue.tenant_id d
            /\ RentDue.month (f d) = RentDue.month d.

(** The filter of [calculate_due_for_tenant]. *)
Definition is_unpaid_of (tenant_id : Z) (d : RentDue.t) : bool :=
  (RentDue.tenant_id d =? tenant_id)%Z
  && (RentDue.status d =? "unpaid")%string.

(** The printable one-byte characters other than the space. *)
Definition is_visible (c : ascii) : bool :=
  PyStr.between 33 126 (PyStr.code c).

(** A text of one-byte whitespace, and a text of visible characters. *)
Definition is_ascii_space (s : string) : bool :=
  forallb PyStr.is_space1 (list_ascii_of_string s).

Definition all_visible (s : string) : bool :=
  forallb is_visible (list_ascii_of_string s).

(** The number [build_whatsapp_link] puts in the link. *)
Definition normalized (phone : string) : string :=
  if PyStr.startswith (PyStr.strip phone) "91" then PyStr.strip phone
  else "91" ++ PyStr.strip phone.

(** Every byte of the text is one [quote] leaves alone, or the percent
    sign. *)
Definition url_escaped (s : string) : bool :=
  forallb (fun c => PyStr.is_safe c || (PyStr.code c =? 37)%nat)
          (list_ascii_of_string s).

(** A request to a guarded route that carries no admin session. *)
Definition unauthenticated (r : request) : bool :=
  match r with
  | AddTenant None _ | EditTenant None _ _ | DeleteTenant None _
  | GenerateCurrentMonth None _ | MarkRentPaid None _ _
  | MarkRentUnpaid None _ => true
  | _ => false
  end.

(** The requests handled one after the other. *)
Definition handle_all (rs : list request) (st : db) : db :=
  fold_left (fun st r => handle r st) rs st.

(** The tenant has no RentDue for the month yet. *)
Definition lacks_due (m : string) (st : db) (t : Tenant.t) : bool :=
  match due_for (Tenant.id t) m st with
  | None => true
  | Some _ => false
  end.

(** A row as the month generator makes it for some tenant of [ts]. *)
Definition generated_for (m : string) (ts : list Tenant.t) (d : RentDue.t)
    : Prop :=
  RentDue.month d = m /\ RentDue.status d = "unpaid"
  /\ RentDue.paid_date d = None
  /\ exists t, In t ts /\ RentDue.tenant_id d = Tenant.id t
               /\ RentDue.amount d = Tenant.monthly_rent t.

(** A row as the fake-months route makes it for the tenant [t]. *)
Definition faked_for (t : Tenant.t) (ms : list string) (d : RentDue.t)
    : Prop :=
  RentDue.tenant_id d = Tenant.id t /\ In (RentDue.month d) ms
  /\ RentDue.amount d = Tenant.monthly_rent t
  /\ RentDue.status d = "unpaid" /\ RentDue.paid_date d = None.

(** The key of the month [m] of the year [y]. *)
Definition month_key (y m : Z) : string := Date.strftime_Y_m (Date.mk y m 1).

(** The key of the month [k] months before the month [m] of [y], for
    [k < 12]. *)
Definition months_back (k y m : Z) : string :=
  if (k <? m)%Z then month_key y (m - k) else month_key (y - 1) (m - k + 12).

(** Dates relative to a year whose leap flag is known: a year offset, a
    month and a day. [None] stands for a step that would ask for the
    February of another year. *)
Definition yesterday_rel (leap : bool) (x : Z * Z * Z) : option (Z * Z * Z) :=
  let '(dy, m, d) := x in
  if (1 <? d)%Z then Some (dy, m, d - 1)%Z
  else if (1 <? m)%Z then
    if (m - 1 =? 2)%Z
    then (if (dy =? 0)%Z then Some (dy, 2, if leap then 29 else 28)%Z
          else None)
    else Some (dy, m - 1, Date.days_in_month 1 (m - 1))%Z
  else Some (dy - 1, 12, 31)%Z.

Fixpoint minus_days_rel (leap : bool) (n : nat) (x : Z * Z * Z)
    : option (Z * Z * Z) :=
  match n with
  | O => Some x
  | S k => match yesterday_rel leap x with
           | Some p => minus_days_rel leap k p
           | None => None
           end
  end.

Definition key_rel (y : Z) (x : Z * Z * Z) : string :=
  let '(dy, m, _) := x in month_key (y + dy) m.

(** The value of a hexadecimal digit. *)
Definition hex_value (c : ascii) : option nat :=
  let n := PyStr.code c in
  if PyStr.between 48 57 n then Some (n - 48)%nat
  else if PyStr.between 65 70 n then Some (n - 55)%nat
  else if PyStr.between 97 102 n then Some (n - 87)%nat
  else None.

(** The decoding that undoes [quote], as [urllib.parse.unquote_to_bytes]
    does it: a percent sign with two hexadecimal digits is one byte, every
    other byte stands for itself. *)
Fixpoint unquote (s : string) : string :=
  match s with
  | EmptyString => EmptyString
  | String c r =>
    if (PyStr.code c =? 37)%nat then
      match r with
      | String h1 (String h2 r2) =>
        match hex_value h1, hex_value h2 with
        | Some a, Some b => String (ascii_of_nat (16 * a + b)) (unquote r2)
        | _, _ => String c (unquote r)
        end
      | _ => String c (unquote r)
      end
    else String c (unquote r)
  end.

(** The bytes of [s] that [quote] escapes. *)
Definition escaped_bytes (s : string) : list ascii :=
  filter (fun c => negb (PyStr.is_safe c)) (list_ascii_of_string s).

(** What both directions of stripping have in common: the result is the
    rest of the text after a removed part, and it does not begin with a
    one-byte whitespace. *)
Definition strips (f : list ascii -> list ascii) (l : list ascii) : Prop :=
  (exists cut, l = cut ++ f l)%list
  /\ forall c r, f l = c :: r -> PyStr.is_space1 c = false.

(** The tenant has at least one unpaid due. *)
Definition has_due (st : db) (t : Tenant.t) : bool :=
  (0 <? fst (fst (calculate_due_for_tenant (Tenant.id t) st)))%nat.

(** The total the due calculator returns for the tenant. *)
Definition total_of (st : db) (t : Tenant.t) : PyNum.t :=
  snd (fst (calculate_due_for_tenant (Tenant.id t) st)).

(** The dashboard entry of a tenant. *)
Definition entry_of (float_repr : float -> string) (st : db) (t : Tenant.t)
    : due_entry :=
  mk_entry t (fst (fst (calculate_due_for_tenant (Tenant.id t) st)))
           (total_of st t) (get_whatsapp_reminder_link float_repr t st).

(** A key the URL converter accepts and SQLite can look up: a signed
    64-bit integer that is not negative. (For a larger key the lookup
    raises and the answer is a server error.) *)
Definition sqlite_key (k : Z) : Prop := (0 <= k < 9223372036854775808)%Z.

(** A rent that SQLite stores and returns as it is given: not a NaN,
    which the NOT NULL column refuses, and not the negative zero, which
    reads back as 0.0. *)
Definition storable_rent (x : float) : bool :=
  match PrimFloat.classify x with
  | FloatClass.NaN | FloatClass.NZero => false
  | _ => true
  end.

(** * Example stores *)

(** Ann with a paid due for January and an unpaid one for February. *)
Definition paid_row : RentDue.t :=
  RentDue.mk 1 1 "2025-01" 5000%float "paid" (Some 1736000000%Z).

Definition unpaid_row : RentDue.t :=
  RentDue.mk 2 1 "2025-02" 5000%float "unpaid" None.

Definition ann : Tenant.t := Tenant.mk 1 "Ann" "9876543210" "A1" 5000%float.

Definition two_rows : db := mkdb [ann] [paid_row; unpaid_row].

(** The forms that add Ann and Bob. *)
Definition ann_form : tenant_form := mkform "Ann" "9876543210" "A1" 5000%float.
Definition bob_form : tenant_form := mkform "Bob" "919812345678" "B2" 7500%float.

(** Two tenants and no dues. *)
Definition two_tenants : db :=
  handle (AddTenant (Some 1%Z) (Some bob_form))
    (handle (AddTenant (Some 1%Z) (Some ann_form)) empty_db).

(** One tenant with rent 5000 and no dues. *)
Definition one_tenant : db :=
  handle (AddTenant (Some 1%Z) (Some ann_form)) empty_db.

(** Ann with her due of 5000 for January, and the form that raises her
    rent to 6000. *)
Definition ann_january : db :=
  generate_current_month_rent "2025-01" one_tenant.

Definition ann_raise : tenant_form :=
  mkform "Ann" "9876543210" "A1" 6000%float.

(** Ann's January due, then paid at time 1736000000. *)
Definition ann_paid : db :=
  handle (MarkRentPaid (Some 1%Z) 1736000000%Z 1) ann_january.

(** Ann and Bob with their January dues. *)
Definition two_january : db :=
  generate_current_month_rent "2025-01" two_tenants.

(** Ann owes January to March and has paid December; Bob owes January. *)
Definition ledger : db :=
  mkdb [ann; Tenant.mk 2 "Bob" "919812345678" "B2" 7500%float]
       [RentDue.mk 1 1 "2024-12" 5000%float "paid" (Some 1735000000%Z);
        RentDue.mk 2 1 "2025-01" 5000%float "unpaid" None;
        RentDue.mk 3 2 "2025-01" 7500%float "unpaid" None;
        RentDue.mk 4 1 "2025-02" 5000%float "unpaid" None;
        RentDue.mk 5 1 "2025-03" 5000%float "unpaid" None].

(** * Properties *)

Open Scope list_scope.

(** ** Status transitions *)

Lemma mark_rent_paid_not_unpaid s now due_id st due :
  get_due due_id st = Some due ->
  (RentDue.status due =? "unpaid") = false ->
  mark_rent_paid s now due_id st
  = (after_login s (Redirect (dues_url (RentDue.tenant_id due))), st).
Proof.
  intros Hget Hst. unfold mark_rent_paid, after_login.
  destruct (logged_in s); simpl; [|reflexivity].
  rewrite Hget, Hst. reflexivity.
Qed.

Lemma mark_rent_unpaid_not_paid s due_id st due :
  get_due due_id st = Some due ->
  (RentDue.status due =? "paid") = false ->
  mark_rent_unpaid s due_id st
  = (after_login s (Redirect (dues_url (RentDue.tenant_id due))), st).
Proof.
  intros Hget Hst. unfold mark_rent_unpaid, after_login.
  destruct (logged_in s); simpl; [|reflexivity].
  rewrite Hget, Hst. reflexivity.
Qed.

(** C5: a transition asked for from the wrong state changes nothing and
    is no error. For an entry [due] found under [due_id], marking it paid
    when its status is already "paid", or unpaid when its status is
    "unpaid", returns the whole store as it was (so the entry keeps its
    status, paid date, amount and month) and answers with the usual
    redirect to the tenant's dues page, not with a failure. *)
Theorem wrong_state_transition_is_noop
    (s : session) (now : datetime) (due_id : Z) (st : db) (due : RentDue.t) :
  get_due due_id st = Some due ->
  (RentDue.status due = "paid" ->
   mark_rent_paid s now due_id st
   = (after_login s (Redirect (dues_url (RentDue.tenant_id due))), st))
  /\ (RentDue.status due = "unpaid" ->
      mark_rent_unpaid s due_id st
      = (after_login s (Redirect (dues_url (RentDue.tenant_id due))), st)).
Proof.
  intros Hget. split; intros Hst.
  - apply mark_rent_paid_not_unpaid; [exact Hget|]. rewrite Hst. reflexivity.
  - apply mark_rent_unpaid_not_paid; [exact Hget|]. rewrite Hst. reflexivity.
Qed.

Lemma wrong_state_transition_is_noop_witness :
  mark_rent_paid (Some 1%Z) 1740000000%Z 1 two_rows
  = (Redirect "/tenant/1/dues", two_rows)
  /\ mark_rent_unpaid (Some 1%Z) 2 two_rows
     = (Redirect "/tenant/1/dues", two_rows).
Proof.
  split.
  - apply (proj1 (wrong_state_transition_is_noop (Some 1%Z) 1740000000%Z 1
                    two_rows paid_row eq_refl)).
    reflexivity.
  - apply (proj2 (wrong_state_transition_is_noop (Some 1%Z) 0%Z 2
                    two_rows unpaid_row eq_refl)).
    reflexivity.
Defined.

(** ** Invariants of the store *)

(** *** Lists *)

Section ListFacts.
Context {A : Type}.

Lemma find_none_filter (f : A -> bool) (l : list A) :
  find f l = None <-> filter f l = [].
Proof.
  induction l as [|a l IH]; simpl; [tauto|].
  destruct (f a); [split; discriminate | exact IH].
Qed.

Lemma find_some_app (f : A -> bool) (l l' : list A) (x : A) :
  find f l = Some x -> find f (l ++ l') = Some x.
Proof.
  induction l as [|a l IH]; simpl; [discriminate|].
  destruct (f a); [trivial | exact IH].
Qed.

Lemma find_none_app (f : A -> bool) (l l' : list A) :
  find f l = None -> find f (l ++ l') = find f l'.
Proof.
  induction l as [|a l IH]; simpl; [trivial|].
  destruct (f a); [discriminate | exact IH].
Qed.

Lemma find_map_same (f : A -> bool) (g : A -> A) (l : list A) :
  (forall x, f (g x) = f x) ->
  find f (map g l) = option_map g (find f l).
Proof.
  intros Hfg. induction l as [|a l IH]; simpl; [reflexivity|].
  rewrite Hfg. destruct (f a); [reflexivity | exact IH].
Qed.

Lemma filter_map_same (f : A -> bool) (g : A -> A) (l : list A) :
  (forall x, f (g x) = f x) ->
  filter f (map g l) = map g (filter f l).
Proof.
  intros Hfg. induction l as [|a l IH]; simpl; [reflexivity|].
  rewrite Hfg. destruct (f a); simpl; rewrite IH; reflexivity.
Qed.

Lemma filter_filter_length (f g : A -> bool) (l : list A) :
  (List.length (filter f (filter g l)) <= List.length (filter f l))%nat.
Proof.
  induction l as [|a l IH]; simpl; [lia|].
  destruct (g a), (f a) eqn:Hf; simpl; rewrite ?Hf; simpl; lia.
Qed.

Lemma filter_nothing (f : A -> bool) (l : list A) :
  (forall x, In x l -> f x = false) -> filter f l = [].
Proof.
  induction l as [|a l IH]; simpl; intros H; [reflexivity|].
  rewrite (H a (or_introl eq_refl)). apply IH. intros x Hx. apply H. now right.
Qed.

Lemma filter_all (f : A -> bool) (l : list A) :
  (forall x, In x l -> f x = true) -> filter f l = l.
Proof.
  induction l as [|a l IH]; simpl; intros H; [reflexivity|].
  rewrite (H a (or_introl eq_refl)). f_equal. apply IH. intros x Hx.
  apply H. now right.
Qed.

Lemma NoDup_map_filter {B : Type} (k : A -> B) (f : A -> bool) (l : list A) :
  NoDup (map k l) -> NoDup (map k (filter f l)).
Proof.
  induction l as [|a l IH]; simpl; intros H; [constructor|].
  inversion H as [|? ? Hnot Hnd]; subst.
  destruct (f a); simpl; [|now apply IH].
  constructor; [|now apply IH].
  intros Hin. apply Hnot. apply in_map_iff in Hin.
  destruct Hin as [x [Hk Hx]]. apply filter_In in Hx.
  apply in_map_iff. exists x. tauto.
Qed.

End ListFacts.

Lemma fold_max_ge (ids : list Z) (i : Z) :
  In i ids -> (i <= fold_right Z.max 0 ids)%Z.
Proof.
  induction ids as [|a ids IH]; simpl; [tauto|].
  intros [->|Hin]; [lia|]. specialize (IH Hin). lia.
Qed.

Lemma next_id_fresh (ids : list Z) : ~ In (next_id ids) ids.
Proof.
  intros Hin. apply fold_max_ge in Hin. unfold next_id in Hin. lia.
Qed.

Lemma NoDup_snoc {A : Type} (l : list A) (x : A) :
  NoDup l -> ~ In x l -> NoDup (l ++ [x]).
Proof.
  intros Hnd Hx. induction Hnd as [|a l Ha Hnd IH]; simpl.
  - constructor; [tauto | constructor].
  - constructor.
    + rewrite in_app_iff. simpl. intros [H|[H|[]]]; [tauto|].
      subst. apply Hx. now left.
    + apply IH. intros H. apply Hx. now right.
Qed.

(** *** Inserting a due *)

Lemma due_for_hd tid m st : due_for tid m st = hd_error (dues_of tid m st).
Proof.
  unfold due_for, dues_of. induction (rent_dues st) as [|a l IH]; simpl.
  - reflexivity.
  - destruct ((RentDue.tenant_id a =? tid)%Z && (RentDue.month a =? m));
      [reflexivity | exact IH].
Qed.

Lemma due_for_none tid m st : due_for tid m st = None <-> dues_of tid m st = [].
Proof. unfold due_for, dues_of. apply find_none_filter. Qed.

Lemma key_eqb_true tid m tid' m' :
  (tid =? tid')%Z && (m =? m') = true <-> tid = tid' /\ m = m'.
Proof. rewrite andb_true_iff, Z.eqb_eq, String.eqb_eq. tauto. Qed.

Lemma dues_of_add_due tid m amt status st tid' m' :
  dues_of tid' m' (add_due tid m amt status st)
  = dues_of tid' m' st
    ++ (if (tid =? tid')%Z && (m =? m')
        then [RentDue.mk (next_id (map RentDue.id (rent_dues st)))
                         tid m amt status None]
        else []).
Proof. unfold dues_of, add_due. simpl. rewrite filter_app. reflexivity. Qed.

Lemma add_due_invariant tid m amt st :
  invariant st ->
  due_for tid m st = None ->
  In tid (map Tenant.id (tenants st)) ->
  invariant (add_due tid m amt "unpaid" st).
Proof.
  intros [Htpk Hdpk Hst Hmu Hown] Hnone Htid. constructor.
  - exact Htpk.
  - simpl. rewrite map_app. simpl. apply NoDup_snoc; [exact Hdpk|].
    apply next_id_fresh.
  - simpl. apply Forall_app. split; [exact Hst|].
    constructor; [|constructor]. left. simpl. tauto.
  - intros tid' m'. rewrite dues_of_add_due.
    destruct ((tid =? tid')%Z && (m =? m')) eqn:Hk.
    + apply key_eqb_true in Hk. destruct Hk as [<- <-].
      apply due_for_none in Hnone. rewrite Hnone. simpl. lia.
    + rewrite app_nil_r. apply Hmu.
  - intros d Hd. simpl in Hd. apply in_app_iff in Hd.
    destruct Hd as [Hd|[<-|[]]]; [now apply Hown | exact Htid].
Qed.

Lemma tenants_add_due tid m amt status st :
  tenants (add_due tid m amt status st) = tenants st.
Proof. reflexivity. Qed.

(** *** The month generator *)

Lemma tenants_generate_for m st t : tenants (generate_for m st t) = tenants st.
Proof. unfold generate_for. destruct (due_for _ _ _); reflexivity. Qed.

Lemma tenants_generate_fold m l st :
  tenants (fold_left (generate_for m) l st) = tenants st.
Proof.
  revert st. induction l as [|a l IH]; intros st; simpl; [reflexivity|].
  rewrite IH. apply tenants_generate_for.
Qed.

Lemma tenants_generate m st :
  tenants (generate_current_month_rent m st) = tenants st.
Proof. apply tenants_generate_fold. Qed.

Lemma generate_for_invariant m st t :
  invariant st -> In (Tenant.id t) (map Tenant.id (tenants st)) ->
  invariant (generate_for m st t).
Proof.
  intros Hinv Hin. unfold generate_for.
  destruct (due_for (Tenant.id t) m st) eqn:Hd; [exact Hinv|].
  now apply add_due_invariant.
Qed.

Lemma generate_fold_invariant m l st :
  invariant st ->
  (forall t, In t l -> In (Tenant.id t) (map Tenant.id (tenants st))) ->
  invariant (fold_left (generate_for m) l st).
Proof.
  revert st. induction l as [|a l IH]; intros st Hinv Hl; simpl; [exact Hinv|].
  apply IH.
  - apply generate_for_invariant; [exact Hinv|]. apply Hl. now left.
  - intros t Ht. rewrite tenants_generate_for. apply Hl. now right.
Qed.

Lemma generate_invariant m st :
  invariant st -> invariant (generate_current_month_rent m st).
Proof.
  intros Hinv. apply generate_fold_invariant; [exact Hinv|].
  intros t Ht. now apply in_map.
Qed.

(** The generator only appends rows. *)
Lemma generate_for_appends m st t :
  exists new, rent_dues (generate_for m st t) = rent_dues st ++ new.
Proof.
  unfold generate_for. destruct (due_for _ _ _).
  - exists []. now rewrite app_nil_r.
  - eexists. reflexivity.
Qed.

Lemma generate_fold_appends m l st :
  exists new, rent_dues (fold_left (generate_for m) l st) = rent_dues st ++ new.
Proof.
  revert st. induction l as [|a l IH]; intros st; simpl.
  - exists []. now rewrite app_nil_r.
  - destruct (IH (generate_for m st a)) as [n2 H2].
    destruct (generate_for_appends m st a) as [n1 H1].
    exists (n1 ++ n2). rewrite H2, H1. now rewrite app_assoc.
Qed.

Lemma due_for_some_app tid m st st' new d :
  rent_dues st' = rent_dues st ++ new ->
  due_for tid m st = Some d -> due_for tid m st' = Some d.
Proof.
  unfold due_for. intros -> H. now apply find_some_app.
Qed.

Lemma due_for_generate_for m st t :
  due_for (Tenant.id t) m (generate_for m st t) <> None.
Proof.
  unfold generate_for. destruct (due_for (Tenant.id t) m st) eqn:Hd.
  - rewrite Hd. discriminate.
  - rewrite due_for_none, dues_of_add_due.
    rewrite Z.eqb_refl, String.eqb_refl. simpl.
    intros H. now apply app_eq_nil in H.
Qed.

Lemma due_for_fold_kept m l st tid :
  due_for tid m st <> None ->
  due_for tid m (fold_left (generate_for m) l st) <> None.
Proof.
  intros H. destruct (due_for tid m st) as [d|] eqn:Hd; [|tauto].
  destruct (generate_fold_appends m l st) as [new Hnew].
  rewrite (due_for_some_app _ _ _ _ _ _ Hnew Hd). discriminate.
Qed.

(** After a run every tenant has an entry for the month. *)
Lemma generate_fold_covers m l st t :
  In t l -> due_for (Tenant.id t) m (fold_left (generate_for m) l st) <> None.
Proof.
  revert st. induction l as [|a l IH]; intros st; simpl; [tauto|].
  intros [->|Hin]; [|now apply IH].
  apply due_for_fold_kept, due_for_generate_for.
Qed.

(** A run over tenants that all have an entry changes nothing. *)
Lemma generate_fold_covered m l st :
  (forall t, In t l -> due_for (Tenant.id t) m st <> None) ->
  fold_left (generate_for m) l st = st.
Proof.
  induction l as [|a l IH]; intros H; simpl; [reflexivity|].
  assert (Ha : generate_for m st a = st).
  { unfold generate_for. specialize (H a (or_introl eq_refl)).
    destruct (due_for (Tenant.id a) m st); tauto. }
  rewrite Ha. apply IH. intros t Ht. apply H. now right.
Qed.

Lemma generate_twice m st :
  generate_current_month_rent m (generate_current_month_rent m st)
  = generate_current_month_rent m st.
Proof.
  unfold generate_current_month_rent at 1.
  rewrite tenants_generate. apply generate_fold_covered.
  intros t Ht. now apply generate_fold_covers.
Qed.

Lemma generate_repeat m st n :
  repeat_run (S n) (generate_current_month_rent m) st
  = generate_current_month_rent m st.
Proof.
  induction n as [|n IH]; [reflexivity|].
  change (repeat_run (S (S n)) (generate_current_month_rent m) st)
    with (generate_current_month_rent m
            (repeat_run (S n) (generate_current_month_rent m) st)).
  rewrite IH. apply generate_twice.
Qed.

(** *** Updating a due in place *)

Lemma set_paid_keeps_key now : keeps_key (set_paid now).
Proof. intros d. simpl. tauto. Qed.

Lemma set_unpaid_keeps_key : keeps_key set_unpaid.
Proof. intros d. simpl. tauto. Qed.

Lemma keeps_key_at due_id f :
  keeps_key f ->
  keeps_key (fun d => if (RentDue.id d =? due_id)%Z then f d else d).
Proof.
  intros Hf d. destruct (RentDue.id d =? due_id)%Z; [apply Hf | tauto].
Qed.

Lemma dues_of_map tid m g l :
  keeps_key g ->
  filter (fun d => (RentDue.tenant_id d =? tid)%Z && (RentDue.month d =? m)%string)
         (map g l)
  = map g (filter (fun d => (RentDue.tenant_id d =? tid)%Z
                            && (RentDue.month d =? m)%string) l).
Proof.
  intros Hg. apply filter_map_same. intros x.
  destruct (Hg x) as [_ [-> ->]]. reflexivity.
Qed.

Lemma update_due_invariant due_id f st :
  invariant st -> keeps_key f -> (forall d, status_ok (f d)) ->
  invariant (update_due due_id f st).
Proof.
  intros [Htpk Hdpk Hst Hmu Hown] Hf Hok.
  pose proof (keeps_key_at due_id f Hf) as Hg.
  constructor; simpl.
  - exact Htpk.
  - rewrite map_map.
    rewrite (map_ext _ RentDue.id); [exact Hdpk|].
    intros d. apply Hg.
  - apply Forall_map. eapply Forall_impl; [|exact Hst].
    intros d Hd. simpl. destruct (RentDue.id d =? due_id)%Z; [apply Hok | exact Hd].
  - intros tid m. unfold dues_of, update_due. simpl.
    rewrite (dues_of_map tid m _ _ Hg), length_map. apply Hmu.
  - intros d Hd. apply in_map_iff in Hd. destruct Hd as [x [<- Hx]].
    destruct (Hg x) as [_ [Ht _]]. simpl in Ht. rewrite Ht. now apply Hown.
Qed.

Lemma get_tenant_in tid st t :
  get_tenant tid st = Some t -> In tid (map Tenant.id (tenants st)).
Proof.
  unfold get_tenant. intros H. apply find_some in H. destruct H as [Hin Hid].
  apply Z.eqb_eq in Hid. subst. now apply in_map.
Qed.

(** *** The other routes *)

Lemma tenants_fake_fold tid rent ms st :
  tenants (fold_left (fake_for tid rent) ms st) = tenants st.
Proof.
  revert st. induction ms as [|m ms IH]; intros st; simpl; [reflexivity|].
  rewrite IH. unfold fake_for. destruct (due_for _ _ _); reflexivity.
Qed.

Lemma fake_fold_invariant tid rent ms st :
  invariant st -> In tid (map Tenant.id (tenants st)) ->
  invariant (fold_left (fake_for tid rent) ms st).
Proof.
  revert st. induction ms as [|m ms IH]; intros st Hinv Hin; simpl; [exact Hinv|].
  assert (Hstep : invariant (fake_for tid rent st m)
                  /\ tenants (fake_for tid rent st m) = tenants st).
  { unfold fake_for. destruct (due_for tid m st) eqn:Hd; [tauto|].
    split; [now apply add_due_invariant | reflexivity]. }
  destruct Hstep as [Hi Ht]. apply IH; [exact Hi | now rewrite Ht].
Qed.

Lemma add_tenant_invariant s post st :
  invariant st -> invariant (snd (add_tenant s post st)).
Proof.
  intros Hinv. unfold add_tenant.
  destruct (negb (logged_in s)); [exact Hinv|].
  destruct post as [f|]; [|exact Hinv].
  destruct Hinv as [Htpk Hdpk Hst Hmu Hown]. constructor; simpl.
  - rewrite map_app. simpl. apply NoDup_snoc; [exact Htpk | apply next_id_fresh].
  - exact Hdpk.
  - exact Hst.
  - exact Hmu.
  - intros d Hd. simpl in *. rewrite map_app, in_app_iff. left. now apply Hown.
Qed.

Lemma edit_tenant_invariant s tid post st :
  invariant st -> invariant (snd (edit_tenant s tid post st)).
Proof.
  intros Hinv. unfold edit_tenant.
  destruct (negb (logged_in s)); [exact Hinv|].
  destruct (get_tenant tid st) as [found|]; [|exact Hinv].
  destruct post as [f|]; [|exact Hinv].
  assert (Hids : forall l,
    map Tenant.id
      (map (fun t => if (Tenant.id t =? tid)%Z
                     then Tenant.mk (Tenant.id t) (f_name f) (f_phone f)
                                    (f_room_no f) (f_monthly_rent f)
                     else t) l)
    = map Tenant.id l).
  { intros l. rewrite map_map. apply map_ext. intros t.
    destruct (Tenant.id t =? tid)%Z; reflexivity. }
  destruct Hinv as [Htpk Hdpk Hst Hmu Hown]. constructor; simpl.
  - rewrite Hids. exact Htpk.
  - exact Hdpk.
  - exact Hst.
  - exact Hmu.
  - intros d Hd. simpl in *. rewrite Hids. now apply Hown.
Qed.

Lemma delete_tenant_invariant s tid st :
  invariant st -> invariant (snd (delete_tenant s tid st)).
Proof.
  intros Hinv. unfold delete_tenant.
  destruct (negb (logged_in s)); [exact Hinv|].
  destruct (get_tenant tid st) as [found|]; [|exact Hinv].
  destruct Hinv as [Htpk Hdpk Hst Hmu Hown]. constructor; simpl.
  - now apply NoDup_map_filter.
  - now apply NoDup_map_filter.
  - apply Forall_forall. intros d Hd. apply filter_In in Hd.
    rewrite Forall_forall in Hst. now apply Hst.
  - intros tid' m. unfold dues_of. simpl.
    eapply Nat.le_trans; [apply filter_filter_length | apply Hmu].
  - intros d Hd. simpl in *. apply filter_In in Hd. destruct Hd as [Hd Hne].
    apply negb_true_iff, Z.eqb_neq in Hne.
    specialize (Hown d Hd). apply in_map_iff in Hown.
    destruct Hown as [t [Hid Ht]]. apply in_map_iff. exists t.
    split; [exact Hid|]. apply filter_In. split; [exact Ht|].
    apply negb_true_iff, Z.eqb_neq. congruence.
Qed.

Lemma mark_rent_paid_invariant s now due_id st :
  invariant st -> invariant (snd (mark_rent_paid s now due_id st)).
Proof.
  intros Hinv. unfold mark_rent_paid.
  destruct (negb (logged_in s)); [exact Hinv|].
  destruct (get_due due_id st) as [due|]; [|exact Hinv]. simpl.
  destruct (RentDue.status due =? "unpaid")%string; [|exact Hinv].
  apply update_due_invariant; [exact Hinv | apply set_paid_keeps_key |].
  intros d. right. simpl. split; [reflexivity | discriminate].
Qed.

Lemma mark_rent_unpaid_invariant s due_id st :
  invariant st -> invariant (snd (mark_rent_unpaid s due_id st)).
Proof.
  intros Hinv. unfold mark_rent_unpaid.
  destruct (negb (logged_in s)); [exact Hinv|].
  destruct (get_due due_id st) as [due|]; [|exact Hinv]. simpl.
  destruct (RentDue.status due =? "paid")%string; [|exact Hinv].
  apply update_due_invariant; [exact Hinv | apply set_unpaid_keeps_key |].
  intros d. left. simpl. tauto.
Qed.

Lemma empty_db_invariant : invariant empty_db.
Proof.
  constructor; simpl.
  - constructor.
  - constructor.
  - constructor.
  - intros k m. simpl. lia.
  - intros d [].
Qed.

Lemma handle_invariant r st : invariant st -> invariant (handle r st).
Proof.
  intros Hinv. destruct r; simpl.
  - now apply add_tenant_invariant.
  - now apply edit_tenant_invariant.
  - now apply delete_tenant_invariant.
  - unfold generate_current_month. destruct (negb (logged_in s)); simpl;
      [exact Hinv | now apply generate_invariant].
  - now apply generate_invariant.
  - now apply mark_rent_paid_invariant.
  - now apply mark_rent_unpaid_invariant.
  - unfold generate_fake_3_months.
    destruct (get_tenant tenant_id st) as [t|] eqn:Ht; simpl; [|exact Hinv].
    apply fake_fold_invariant; [exact Hinv | now apply get_tenant_in with t].
Qed.

Lemma reachable_invariant st : reachable st -> invariant st.
Proof.
  induction 1 as [|st r _ IH]; [apply empty_db_invariant |].
  now apply handle_invariant.
Qed.

(** ** The month generator *)

Lemma dues_of_generate_for_other m st a tid m' :
  Tenant.id a <> tid ->
  dues_of tid m' (generate_for m st a) = dues_of tid m' st.
Proof.
  intros Hne. unfold generate_for.
  destruct (due_for (Tenant.id a) m st); [reflexivity|].
  rewrite dues_of_add_due. apply Z.eqb_neq in Hne. rewrite Hne. simpl.
  apply app_nil_r.
Qed.

Lemma dues_of_generate_fold_other m l st tid m' :
  (forall x, In x l -> Tenant.id x <> tid) ->
  dues_of tid m' (fold_left (generate_for m) l st) = dues_of tid m' st.
Proof.
  revert st. induction l as [|a l IH]; intros st H; simpl; [reflexivity|].
  rewrite IH; [|intros x Hx; apply H; now right].
  apply dues_of_generate_for_other. apply H. now left.
Qed.

Lemma generate_fold_creates m l st t :
  NoDup (map Tenant.id l) -> In t l -> dues_of (Tenant.id t) m st = [] ->
  exists due_id,
    dues_of (Tenant.id t) m (fold_left (generate_for m) l st)
    = [RentDue.mk due_id (Tenant.id t) m (Tenant.monthly_rent t) "unpaid" None]
    /\ ~ In due_id (map RentDue.id (rent_dues st)).
Proof.
  revert st. induction l as [|a l IH]; intros st Hnd Hin Hnone; [destruct Hin|].
  simpl in Hnd. inversion Hnd as [|? ? Ha Hnd']; subst. simpl.
  destruct Hin as [->|Hin].
  - exists (next_id (map RentDue.id (rent_dues st))).
    split; [|apply next_id_fresh].
    rewrite dues_of_generate_fold_other.
    + unfold generate_for. rewrite (proj2 (due_for_none _ _ _) Hnone).
      rewrite dues_of_add_due, Hnone, Z.eqb_refl, String.eqb_refl.
      reflexivity.
    + intros x Hx Heq. apply Ha. rewrite <- Heq. now apply in_map.
  - assert (Hne : Tenant.id a <> Tenant.id t).
    { intros Heq. apply Ha. rewrite Heq. now apply in_map. }
    destruct (IH (generate_for m st a) Hnd' Hin) as [due_id [Hd Hfresh]].
    { rewrite dues_of_generate_for_other; assumption. }
    exists due_id. split; [exact Hd|].
    intros Hold. apply Hfresh.
    destruct (generate_for_appends m st a) as [new ->].
    rewrite map_app, in_app_iff. now left.
Qed.

Lemma dues_of_nonempty tid m st :
  due_for tid m st <> None -> (1 <= List.length (dues_of tid m st))%nat.
Proof.
  rewrite due_for_hd. destruct (dues_of tid m st); simpl; [tauto | lia].
Qed.

(** C1: the month generator is idempotent within a month. In every store
    the application can reach, running it [n >= 1] times for the month [m]
    leaves the store that one run leaves; one more run on that store
    changes nothing at all; and every tenant then has exactly one RentDue
    row for [m]. *)
Theorem month_generator_idempotent (st : db) (m : string) (n : nat) :
  reachable st -> (1 <= n)%nat ->
  repeat_run n (generate_current_month_rent m) st
  = generate_current_month_rent m st
  /\ generate_current_month_rent m
       (repeat_run n (generate_current_month_rent m) st)
     = repeat_run n (generate_current_month_rent m) st
  /\ forall t, In t (tenants st) ->
       List.length (dues_of (Tenant.id t) m
                      (repeat_run n (generate_current_month_rent m) st)) = 1%nat.
Proof.
  intros Hreach Hn. destruct n as [|n]; [lia|].
  rewrite generate_repeat. split; [reflexivity|].
  split; [apply generate_twice|].
  intros t Ht.
  pose proof (generate_invariant m st (reachable_invariant st Hreach)) as Hinv.
  pose proof (inv_month _ Hinv (Tenant.id t) m) as Hle.
  pose proof (dues_of_nonempty (Tenant.id t) m
                (generate_current_month_rent m st)
                (generate_fold_covers m (tenants st) st t Ht)) as Hge.
  unfold generate_current_month_rent in *. lia.
Qed.

Lemma two_tenants_reachable : reachable two_tenants.
Proof. apply reach_step, reach_step, reach_init. Qed.

Lemma month_generator_idempotent_witness :
  repeat_run 3 (generate_current_month_rent "2025-01") two_tenants
  = generate_current_month_rent "2025-01" two_tenants
  /\ generate_current_month_rent "2025-01"
       (repeat_run 3 (generate_current_month_rent "2025-01") two_tenants)
     = repeat_run 3 (generate_current_month_rent "2025-01") two_tenants
  /\ forall t, In t (tenants two_tenants) ->
       List.length (dues_of (Tenant.id t) "2025-01"
         (repeat_run 3 (generate_current_month_rent "2025-01") two_tenants))
       = 1%nat.
Proof.
  apply (month_generator_idempotent two_tenants "2025-01" 3).
  - apply two_tenants_reachable.
  - lia.
Defined.

(** C2: a tenant without an entry for the month gets exactly one. In every
    reachable store, for a tenant [t] with no RentDue for [m], the rows for
    ([t], [m]) after one run are a single row, under a key no earlier row
    has, with amount the tenant's monthly rent, status "unpaid" and no paid
    date. The witness is the scenario of a tenant with rent 5000 and no
    dues. *)
Theorem month_generator_creates_missing (st : db) (m : string) (t : Tenant.t) :
  reachable st -> In t (tenants st) -> dues_of (Tenant.id t) m st = [] ->
  exists due_id,
    dues_of (Tenant.id t) m (generate_current_month_rent m st)
    = [RentDue.mk due_id (Tenant.id t) m (Tenant.monthly_rent t) "unpaid" None]
    /\ ~ In due_id (map RentDue.id (rent_dues st)).
Proof.
  intros Hreach Hin Hnone.
  apply generate_fold_creates; [|exact Hin | exact Hnone].
  apply (inv_tenant_pk _ (reachable_invariant st Hreach)).
Qed.

Lemma month_generator_creates_missing_witness :
  exists due_id,
    dues_of 1 "2025-01" (generate_current_month_rent "2025-01" one_tenant)
    = [RentDue.mk due_id 1 "2025-01" 5000%float "unpaid" None]
    /\ ~ In due_id (map RentDue.id (rent_dues one_tenant)).
Proof.
  apply (month_generator_creates_missing one_tenant "2025-01" ann).
  - apply reach_step, reach_init.
  - left. reflexivity.
  - reflexivity.
Defined.

(** The scenario of C2 as a run of the code. *)
Example generate_2025_01 :
  generate_current_month_rent "2025-01" one_tenant
  = mkdb [ann] [RentDue.mk 1 1 "2025-01" 5000%float "unpaid" None].
Proof. reflexivity. Qed.

Lemma rent_dues_edit_tenant s tid post st :
  rent_dues (snd (edit_tenant s tid post st)) = rent_dues st.
Proof.
  unfold edit_tenant. destruct (negb (logged_in s)); [reflexivity|].
  destruct (get_tenant tid st); [|reflexivity].
  destruct post; reflexivity.
Qed.

Lemma get_due_appended due_id st st' new d :
  rent_dues st' = rent_dues st ++ new ->
  get_due due_id st = Some d -> get_due due_id st' = Some d.
Proof. unfold get_due. intros -> H. now apply find_some_app. Qed.

(** C6: the month generator changes no row that is already there. After a
    run the [rent_due] table is the old table, row for row, followed by the
    rows the run added; so the row found under any key before the run is
    found under it afterwards with the same amount, status, paid date and
    month. The same holds when a tenant was edited (its rent changed)
    between the creation of the rows and the run. *)
Theorem month_generator_keeps_existing_rows (st : db) (m : string) :
  (exists new,
     rent_dues (generate_current_month_rent m st) = rent_dues st ++ new)
  /\ (forall due_id d,
        get_due due_id st = Some d ->
        get_due due_id (generate_current_month_rent m st) = Some d)
  /\ (forall s tid post,
        (exists new,
           rent_dues (generate_current_month_rent m
                        (snd (edit_tenant s tid post st)))
           = rent_dues st ++ new)
        /\ forall due_id d,
             get_due due_id st = Some d ->
             get_due due_id (generate_current_month_rent m
                               (snd (edit_tenant s tid post st))) = Some d).
Proof.
  split; [apply generate_fold_appends|].
  split.
  - intros due_id d Hd.
    destruct (generate_fold_appends m (tenants st) st) as [new Hnew].
    exact (get_due_appended _ _ _ _ _ Hnew Hd).
  - intros s tid post.
    destruct (generate_fold_appends m
                (tenants (snd (edit_tenant s tid post st)))
                (snd (edit_tenant s tid post st))) as [new Hnew].
    rewrite rent_dues_edit_tenant in Hnew.
    split; [exists new; exact Hnew|].
    intros due_id d Hd. exact (get_due_appended _ _ _ _ _ Hnew Hd).
Qed.

Lemma month_generator_keeps_existing_rows_witness :
  get_due 1 (generate_current_month_rent "2025-01"
               (snd (edit_tenant (Some 1%Z) 1 (Some ann_raise) ann_january)))
  = Some (RentDue.mk 1 1 "2025-01" 5000%float "unpaid" None)
  /\ get_due 1 (generate_current_month_rent "2025-02"
                  (snd (edit_tenant (Some 1%Z) 1 (Some ann_raise) ann_january)))
     = Some (RentDue.mk 1 1 "2025-01" 5000%float "unpaid" None)
  /\ get_due 1 (generate_current_month_rent "2025-02" ann_january)
     = Some (RentDue.mk 1 1 "2025-01" 5000%float "unpaid" None).
Proof.
  split; [|split].
  - apply (proj2 (proj2 (proj2
             (month_generator_keeps_existing_rows ann_january "2025-01"))
             (Some 1%Z) 1%Z (Some ann_raise))).
    reflexivity.
  - apply (proj2 (proj2 (proj2
             (month_generator_keeps_existing_rows ann_january "2025-02"))
             (Some 1%Z) 1%Z (Some ann_raise))).
    reflexivity.
  - apply (proj1 (proj2
             (month_generator_keeps_existing_rows ann_january "2025-02"))).
    reflexivity.
Defined.

(** ** Status and paid date *)

Lemma get_due_update_due due_id f st :
  keeps_key f ->
  get_due due_id (update_due due_id f st) = option_map f (get_due due_id st).
Proof.
  intros Hf. unfold get_due, update_due. simpl.
  rewrite find_map_same.
  - destruct (find (fun d => (RentDue.id d =? due_id)%Z) (rent_dues st))
      as [d|] eqn:Hd; [|reflexivity].
    apply find_some in Hd. destruct Hd as [_ Hid]. simpl. now rewrite Hid.
  - intros x. destruct (RentDue.id x =? due_id)%Z eqn:Hx; [|exact Hx].
    destruct (Hf x) as [-> _]. exact Hx.
Qed.

Lemma status_ok_spec d :
  status_ok d ->
  (RentDue.status d = "unpaid" \/ RentDue.status d = "paid")
  /\ (RentDue.paid_date d <> None <-> RentDue.status d = "paid").
Proof.
  intros [[Hs Hp]|[Hs Hp]]; rewrite Hs.
  - split; [now left|]. rewrite Hp. split; [tauto | discriminate].
  - split; [now right | tauto].
Qed.

(** C4: in every store the application can reach, each RentDue row has
    status "unpaid" or "paid" and has a paid date if and only if its status
    is "paid". Marking an unpaid row paid stores it with status "paid" and
    the current time as paid date; marking a paid row unpaid stores it with
    status "unpaid" and no paid date; a row in the other status is left as
    it is by the route, paid date included. *)
Theorem status_and_paid_date (st : db) :
  reachable st ->
  (forall d, In d (rent_dues st) ->
     (RentDue.status d = "unpaid" \/ RentDue.status d = "paid")
     /\ (RentDue.paid_date d <> None <-> RentDue.status d = "paid"))
  /\ (forall a now due_id d,
        get_due due_id st = Some d ->
        (RentDue.status d = "unpaid" ->
         get_due due_id (snd (mark_rent_paid (Some a) now due_id st))
         = Some (RentDue.mk (RentDue.id d) (RentDue.tenant_id d)
                            (RentDue.month d) (RentDue.amount d)
                            "paid" (Some now)))
        /\ (RentDue.status d <> "unpaid" ->
            snd (mark_rent_paid (Some a) now due_id st) = st))
  /\ (forall a due_id d,
        get_due due_id st = Some d ->
        (RentDue.status d = "paid" ->
         get_due due_id (snd (mark_rent_unpaid (Some a) due_id st))
         = Some (RentDue.mk (RentDue.id d) (RentDue.tenant_id d)
                            (RentDue.month d) (RentDue.amount d)
                            "unpaid" None))
        /\ (RentDue.status d <> "paid" ->
            snd (mark_rent_unpaid (Some a) due_id st) = st)).
Proof.
  intros Hreach. split; [|split].
  - intros d Hd. apply status_ok_spec.
    pose proof (inv_status _ (reachable_invariant st Hreach)) as Hall.
    rewrite Forall_forall in Hall. now apply Hall.
  - intros a now due_id d Hget. unfold mark_rent_paid. simpl. rewrite Hget.
    split; intros Hs.
    + rewrite Hs. simpl.
      rewrite (get_due_update_due _ _ _ (set_paid_keeps_key now)), Hget.
      reflexivity.
    + apply String.eqb_neq in Hs. rewrite Hs. reflexivity.
  - intros a due_id d Hget. unfold mark_rent_unpaid. simpl. rewrite Hget.
    split; intros Hs.
    + rewrite Hs. simpl.
      rewrite (get_due_update_due _ _ _ set_unpaid_keeps_key), Hget.
      reflexivity.
    + apply String.eqb_neq in Hs. rewrite Hs. reflexivity.
Qed.

Lemma ann_paid_reachable : reachable ann_paid.
Proof. apply reach_step. apply (reach_step _ (Scheduled "2025-01")).
  apply reach_step, reach_init. Qed.

Lemma status_and_paid_date_witness :
  (forall d, In d (rent_dues ann_paid) ->
     (RentDue.status d = "unpaid" \/ RentDue.status d = "paid")
     /\ (RentDue.paid_date d <> None <-> RentDue.status d = "paid"))
  /\ get_due 1 (snd (mark_rent_unpaid (Some 1%Z) 1 ann_paid))
     = Some (RentDue.mk 1 1 "2025-01" 5000%float "unpaid" None)
  /\ snd (mark_rent_paid (Some 1%Z) 1740000000%Z 1 ann_paid) = ann_paid.
Proof.
  pose proof (status_and_paid_date ann_paid ann_paid_reachable)
    as [Hinv [Hpaid Hunpaid]].
  split; [exact Hinv|]. split.
  - apply (proj1 (Hunpaid 1%Z 1%Z
                    (RentDue.mk 1 1 "2025-01" 5000%float "paid"
                                (Some 1736000000%Z)) eq_refl)).
    reflexivity.
  - apply (proj2 (Hpaid 1%Z 1740000000%Z 1%Z
                    (RentDue.mk 1 1 "2025-01" 5000%float "paid"
                                (Some 1736000000%Z)) eq_refl)).
    discriminate.
Defined.

(** ** Deleting a tenant *)

Lemma filter_filter_implied {A : Type} (f g : A -> bool) (l : list A) :
  (forall x, f x = true -> g x = true) ->
  filter f (filter g l) = filter f l.
Proof.
  intros H. induction l as [|a l IH]; simpl; [reflexivity|].
  destruct (f a) eqn:Hf.
  - rewrite (H a Hf). simpl. rewrite Hf, IH. reflexivity.
  - destruct (g a); simpl; rewrite ?Hf; exact IH.
Qed.

Lemma filter_filter_excluded {A : Type} (f g : A -> bool) (l : list A) :
  (forall x, f x = true -> g x = false) ->
  filter f (filter g l) = [].
Proof.
  intros H. apply filter_nothing. intros x Hx. apply filter_In in Hx.
  destruct (f x) eqn:Hf; [|reflexivity].
  rewrite (H x Hf) in Hx. destruct Hx. discriminate.
Qed.

(** C9: deleting a tenant deletes the tenant's dues. In a reachable store
    where the tenant [tid] exists, after the delete route ran for a logged
    in admin the tenant is gone, no RentDue row refers to it (the query for
    its dues and the due calculator return nothing), every remaining row
    still has its owning tenant, and the dues of every other tenant are
    the same rows as before. *)
Theorem delete_tenant_cascades (st : db) (a tid : Z) (t : Tenant.t) :
  reachable st -> get_tenant tid st = Some t ->
  fst (delete_tenant (Some a) tid st) = Redirect "/tenants"
  /\ get_tenant tid (snd (delete_tenant (Some a) tid st)) = None
  /\ dues_by_tenant tid (snd (delete_tenant (Some a) tid st)) = []
  /\ calculate_due_for_tenant tid (snd (delete_tenant (Some a) tid st))
     = (0%nat, PyNum.PyInt 0, [])
  /\ no_orphans (snd (delete_tenant (Some a) tid st))
  /\ forall tid', tid' <> tid ->
       dues_by_tenant tid' (snd (delete_tenant (Some a) tid st))
       = dues_by_tenant tid' st.
Proof.
  intros Hreach Hget.
  pose proof (delete_tenant_invariant (Some a) tid st
                (reachable_invariant st Hreach)) as Hinv.
  revert Hinv. unfold delete_tenant. simpl. rewrite Hget. simpl. intros Hinv.
  split; [reflexivity|].
  split.
  { unfold get_tenant. simpl. apply find_none_filter.
    apply filter_filter_excluded. intros x ->. reflexivity. }
  split.
  { unfold dues_by_tenant. simpl.
    apply filter_filter_excluded. intros x ->. reflexivity. }
  split.
  { unfold calculate_due_for_tenant. simpl.
    rewrite filter_filter_excluded; [reflexivity|].
    intros x Hx. apply andb_true_iff in Hx. destruct Hx as [-> _].
    reflexivity. }
  split; [exact (inv_owner _ Hinv)|].
  intros tid' Hne. unfold dues_by_tenant. simpl.
  apply filter_filter_implied. intros x Hx. apply Z.eqb_eq in Hx.
  apply negb_true_iff, Z.eqb_neq. congruence.
Qed.

Lemma delete_tenant_cascades_witness :
  fst (delete_tenant (Some 1%Z) 1 two_january) = Redirect "/tenants"
  /\ get_tenant 1 (snd (delete_tenant (Some 1%Z) 1 two_january)) = None
  /\ dues_by_tenant 1 (snd (delete_tenant (Some 1%Z) 1 two_january)) = []
  /\ calculate_due_for_tenant 1 (snd (delete_tenant (Some 1%Z) 1 two_january))
     = (0%nat, PyNum.PyInt 0, [])
  /\ no_orphans (snd (delete_tenant (Some 1%Z) 1 two_january))
  /\ forall tid', tid' <> 1%Z ->
       dues_by_tenant tid' (snd (delete_tenant (Some 1%Z) 1 two_january))
       = dues_by_tenant tid' two_january.
Proof.
  apply (delete_tenant_cascades two_january 1%Z 1%Z ann).
  - apply (reach_step _ (Scheduled "2025-01")), two_tenants_reachable.
  - reflexivity.
Defined.

(** ** The due calculator *)

(** C3: the due calculator returns [(n, s, D)] where [D] holds exactly the
    tenant's rows whose status is "unpaid" (in table order), [n] is their
    number and [s] the sum of their amounts. Three unpaid dues of 5000 give
    [(3, 15000.0, the three rows)]. A tenant without any row gives
    [(0, 0, [])], where the sum is the [int] 0 that [sum] starts from and
    [0 == 0.0] holds. *)
Theorem due_calculator (st : db) (tid : Z) :
  (exists D,
     calculate_due_for_tenant tid st
     = (List.length D, PyNum.sum (map RentDue.amount D), D)
     /\ D = filter (is_unpaid_of tid) (rent_dues st)
     /\ forall d, In d D <->
                  In d (rent_dues st) /\ RentDue.tenant_id d = tid
                  /\ RentDue.status d = "unpaid")
  /\ (forall d1 d2 d3,
        filter (is_unpaid_of tid) (rent_dues st) = [d1; d2; d3] ->
        RentDue.amount d1 = 5000%float ->
        RentDue.amount d2 = 5000%float ->
        RentDue.amount d3 = 5000%float ->
        calculate_due_for_tenant tid st
        = (3%nat, PyNum.PyFloat 15000%float, [d1; d2; d3]))
  /\ (dues_by_tenant tid st = [] ->
      calculate_due_for_tenant tid st = (0%nat, PyNum.PyInt 0, [])
      /\ PyNum.eqb (PyNum.PyInt 0) (PyNum.PyFloat 0%float) = true).
Proof.
  split; [|split].
  - exists (filter (is_unpaid_of tid) (rent_dues st)).
    split; [reflexivity|]. split; [reflexivity|].
    intros d. rewrite filter_In. unfold is_unpaid_of.
    rewrite andb_true_iff, Z.eqb_eq, String.eqb_eq. tauto.
  - intros d1 d2 d3 HD H1 H2 H3. unfold calculate_due_for_tenant.
    change (filter _ (rent_dues st)) with (filter (is_unpaid_of tid) (rent_dues st)).
    rewrite HD. simpl. unfold PyNum.sum. simpl. rewrite H1, H2, H3.
    reflexivity.
  - intros Hnone. split; [|reflexivity].
    unfold calculate_due_for_tenant.
    rewrite filter_nothing; [reflexivity|].
    intros d Hd. destruct (RentDue.tenant_id d =? tid)%Z eqn:Ht; [|reflexivity].
    exfalso. unfold dues_by_tenant in Hnone.
    assert (Hin : In d (filter (fun d => (RentDue.tenant_id d =? tid)%Z)
                               (rent_dues st))).
    { apply filter_In. tauto. }
    rewrite Hnone in Hin. destruct Hin.
Qed.

Lemma due_calculator_witness :
  calculate_due_for_tenant 1 ledger
  = (3%nat, PyNum.PyFloat 15000%float,
     [RentDue.mk 2 1 "2025-01" 5000%float "unpaid" None;
      RentDue.mk 4 1 "2025-02" 5000%float "unpaid" None;
      RentDue.mk 5 1 "2025-03" 5000%float "unpaid" None])
  /\ calculate_due_for_tenant 7 ledger = (0%nat, PyNum.PyInt 0, [])
  /\ PyNum.eqb (PyNum.PyInt 0) (PyNum.PyFloat 0%float) = true.
Proof.
  split.
  - apply (proj1 (proj2 (due_calculator ledger 1%Z))); reflexivity.
  - apply (proj2 (proj2 (due_calculator ledger 7%Z))). reflexivity.
Defined.

(** ** The reminder link *)

Section Links.
Local Open Scope string_scope.
Import PyStr.

Lemma append_assoc (a b c : string) : (a ++ b) ++ c = a ++ b ++ c.
Proof. induction a as [|x a IH]; simpl; [reflexivity | now rewrite IH]. Qed.

Lemma list_ascii_of_append (a b : string) :
  list_ascii_of_string (a ++ b)
  = (list_ascii_of_string a ++ list_ascii_of_string b)%list.
Proof. induction a as [|x a IH]; simpl; [reflexivity | now rewrite IH]. Qed.

Ltac to_arith :=
  unfold is_visible, is_digit, is_space1, is_space2, is_space3, between in *;
  repeat rewrite ?andb_true_iff, ?orb_true_iff, ?Nat.leb_le, ?Nat.eqb_eq in *.

Ltac is_false :=
  apply not_true_iff_false; intros ?; to_arith; lia.

Lemma visible_not_space1 c : is_visible c = true -> is_space1 c = false.
Proof. intros H. is_false. Qed.

Lemma visible_not_first2 c c2 : is_visible c = true -> is_space2 c c2 = false.
Proof. intros H. is_false. Qed.

Lemma visible_not_first3 c c2 c3 :
  is_visible c = true -> is_space3 c c2 c3 = false.
Proof. intros H. is_false. Qed.

Lemma visible_not_last2 c c1 : is_visible c = true -> is_space2 c1 c = false.
Proof. intros H. is_false. Qed.

Lemma visible_not_last3 c c1 c2 :
  is_visible c = true -> is_space3 c1 c2 c = false.
Proof. intros H. is_false. Qed.

Lemma digit_visible c : is_digit c = true -> is_visible c = true.
Proof. intros H. to_arith. lia. Qed.

Lemma lstrip_cons c1 r1 :
  lstrip (c1 :: r1)
  = if is_space1 c1 then lstrip r1 else
    match r1 with
    | [] => c1 :: r1
    | c2 :: r2 =>
      if is_space2 c1 c2 then lstrip r2 else
      match r2 with
      | [] => c1 :: r1
      | c3 :: r3 => if is_space3 c1 c2 c3 then lstrip r3 else c1 :: r1
      end
    end.
Proof. reflexivity. Qed.

Lemma rstrip_rev_cons c1 r1 :
  rstrip_rev (c1 :: r1)
  = if is_space1 c1 then rstrip_rev r1 else
    match r1 with
    | [] => c1 :: r1
    | c2 :: r2 =>
      if is_space2 c2 c1 then rstrip_rev r2 else
      match r2 with
      | [] => c1 :: r1
      | c3 :: r3 => if is_space3 c3 c2 c1 then rstrip_rev r3 else c1 :: r1
      end
    end.
Proof. reflexivity. Qed.

Lemma lstrip_visible c r : is_visible c = true -> lstrip (c :: r) = c :: r.
Proof.
  intros H. rewrite lstrip_cons, (visible_not_space1 c H).
  destruct r as [|c2 r2]; [reflexivity|].
  rewrite (visible_not_first2 c c2 H).
  destruct r2 as [|c3 r3]; [reflexivity|].
  now rewrite (visible_not_first3 c c2 c3 H).
Qed.

Lemma rstrip_rev_visible c r :
  is_visible c = true -> rstrip_rev (c :: r) = c :: r.
Proof.
  intros H. rewrite rstrip_rev_cons, (visible_not_space1 c H).
  destruct r as [|c2 r2]; [reflexivity|].
  rewrite (visible_not_last2 c c2 H).
  destruct r2 as [|c3 r3]; [reflexivity|].
  now rewrite (visible_not_last3 c c3 c2 H).
Qed.

Lemma lstrip_spaces pre l :
  forallb is_space1 pre = true -> lstrip (pre ++ l)%list = lstrip l.
Proof.
  induction pre as [|c pre IH]; simpl app; intros H; [reflexivity|].
  simpl in H. apply andb_true_iff in H. destruct H as [Hc Hpre].
  rewrite lstrip_cons, Hc. now apply IH.
Qed.

Lemma rstrip_rev_spaces pre l :
  forallb is_space1 pre = true -> rstrip_rev (pre ++ l)%list = rstrip_rev l.
Proof.
  induction pre as [|c pre IH]; simpl app; intros H; [reflexivity|].
  simpl in H. apply andb_true_iff in H. destruct H as [Hc Hpre].
  rewrite rstrip_rev_cons, Hc. now apply IH.
Qed.

Lemma forallb_rev {A : Type} (f : A -> bool) (l : list A) :
  forallb f (rev l) = forallb f l.
Proof.
  induction l as [|a l IH]; simpl; [reflexivity|].
  rewrite forallb_app, IH. simpl. rewrite andb_true_r. apply andb_comm.
Qed.

Lemma rstrip_visible l : forallb is_visible l = true -> rstrip l = l.
Proof.
  intros H. unfold rstrip. rewrite <- forallb_rev in H.
  destruct (rev l) as [|c r] eqn:Hrev.
  - simpl. apply (f_equal (@rev ascii)) in Hrev.
    rewrite rev_involutive in Hrev. now rewrite Hrev.
  - simpl in H. apply andb_true_iff in H. destruct H as [Hc _].
    rewrite (rstrip_rev_visible c r Hc), <- Hrev. apply rev_involutive.
Qed.

Lemma lstrip_all_spaces l : forallb is_space1 l = true -> lstrip l = [].
Proof.
  intros H. rewrite <- (app_nil_r l). now rewrite lstrip_spaces.
Qed.

Lemma rstrip_spaces l post :
  forallb is_space1 post = true -> rstrip (l ++ post)%list = rstrip l.
Proof.
  intros H. unfold rstrip. rewrite rev_app_distr, rstrip_rev_spaces;
    [reflexivity | now rewrite forallb_rev].
Qed.

(** [strip] removes one-byte whitespace around a text of visible
    characters, and nothing else. *)
Lemma strip_padded (pre core post : string) :
  is_ascii_space pre = true -> all_visible core = true ->
  is_ascii_space post = true ->
  strip (pre ++ core ++ post) = core.
Proof.
  unfold is_ascii_space, all_visible, strip. intros Hpre Hcore Hpost.
  rewrite <- (string_of_list_ascii_of_string core) at 2.
  rewrite !list_ascii_of_append, (lstrip_spaces _ _ Hpre). f_equal.
  destruct (list_ascii_of_string core) as [|c r] eqn:Hc.
  - simpl app. now rewrite (lstrip_all_spaces _ Hpost).
  - pose proof Hcore as Hall. simpl in Hcore.
    apply andb_true_iff in Hcore. destruct Hcore as [Hv _].
    change ((c :: r) ++ list_ascii_of_string post)%list
      with (c :: (r ++ list_ascii_of_string post))%list.
    rewrite (lstrip_visible c _ Hv).
    change (c :: (r ++ list_ascii_of_string post))%list
      with ((c :: r) ++ list_ascii_of_string post)%list.
    rewrite (rstrip_spaces _ _ Hpost). now apply rstrip_visible.
Qed.

Lemma strip_visible (s : string) : all_visible s = true -> strip s = s.
Proof.
  intros H. pose proof (strip_padded EmptyString s EmptyString eq_refl H eq_refl) as Hs.
  simpl in Hs. assert (Hnil : s ++ EmptyString = s).
  { clear. induction s as [|c s IH]; simpl; [reflexivity | now rewrite IH]. }
  now rewrite Hnil in Hs.
Qed.

Lemma all_digits_visible (s : string) :
  all_digits s = true -> all_visible s = true.
Proof.
  unfold all_visible. induction s as [|c s IH]; simpl; [reflexivity|].
  intros H. apply andb_true_iff in H. destruct H as [Hc Hs].
  now rewrite (digit_visible c Hc), IH.
Qed.

(** *** The number in the link *)

Lemma build_whatsapp_link_normalized (phone message : string) :
  build_whatsapp_link phone message
  = "https://wa.me/" ++ normalized phone ++ "?text=" ++ quote message.
Proof.
  unfold build_whatsapp_link, normalized.
  destruct (startswith (strip phone) "91"); reflexivity.
Qed.

Lemma startswith_91_added (p : string) : startswith ("91" ++ p) "91" = true.
Proof. destruct p; reflexivity. Qed.

Lemma startswith_9191_added (p : string) :
  startswith ("91" ++ p) "9191" = startswith p "91".
Proof. reflexivity. Qed.

(** C8: phone normalization. The number in the link is the stripped stored
    number when that starts with "91" and "91" followed by it otherwise, so
    it always starts with "91" and starts with "9191" only when the stored
    number did. For the phone "9876543210" the link is
    "https://wa.me/919876543210?text=..." and so contains "919876543210";
    for "919876543210" the link carries that number unchanged. *)
Theorem phone_normalization :
  (forall message,
     build_whatsapp_link "9876543210" message
     = "https://wa.me/919876543210?text=" ++ quote message)
  /\ (forall message,
        contains (build_whatsapp_link "9876543210" message) "919876543210")
  /\ (forall message,
        build_whatsapp_link "919876543210" message
        = "https://wa.me/919876543210?text=" ++ quote message)
  /\ (forall phone message,
        build_whatsapp_link phone message
        = "https://wa.me/" ++ normalized phone ++ "?text=" ++ quote message)
  /\ (forall phone,
        startswith (normalized phone) "91" = true
        /\ (startswith (strip phone) "91" = false ->
            normalized phone = "91" ++ strip phone)
        /\ (startswith (strip phone) "91" = true ->
            normalized phone = strip phone)
        /\ (startswith (normalized phone) "9191" = true ->
            startswith (strip phone) "9191" = true)).
Proof.
  split; [intros message; reflexivity|].
  split; [intros message; exists "https://wa.me/", ("?text=" ++ quote message);
          reflexivity|].
  split; [intros message; reflexivity|].
  split; [apply build_whatsapp_link_normalized|].
  intros phone. unfold normalized.
  destruct (startswith (strip phone) "91") eqn:H91.
  - split; [exact H91|]. split; [discriminate|]. split; [reflexivity|]. tauto.
  - split; [apply startswith_91_added|]. split; [reflexivity|].
    split; [discriminate|].
    rewrite startswith_9191_added, H91. discriminate.
Qed.

Lemma phone_normalization_witness :
  normalized " 9876543210 " = "919876543210"
  /\ normalized "919876543210" = "919876543210"
  /\ (startswith (normalized "91919876543210") "9191" = true ->
      startswith (strip "91919876543210") "9191" = true).
Proof.
  pose proof phone_normalization as [_ [_ [_ [_ H]]]].
  split; [|split].
  - apply (proj1 (proj2 (H " 9876543210 "))). reflexivity.
  - apply (proj1 (proj2 (proj2 (H "919876543210")))). reflexivity.
  - apply (proj2 (proj2 (proj2 (H "91919876543210")))).
Defined.

(** C10: the country-code test is textual. The phone is stripped, and "91"
    is put in front exactly when the stripped text does not start with the
    two characters "91". Whitespace around a number of visible characters
    does not count. So a number made of digits that start with "91", such
    as "9123456789", goes into the link as it is. *)
Theorem country_code_check_is_textual :
  (forall phone message,
     build_whatsapp_link phone message
     = "https://wa.me/"
       ++ (if startswith (strip phone) "91" then strip phone
           else "91" ++ strip phone)
       ++ "?text=" ++ quote message)
  /\ (forall pre core post message,
        is_ascii_space pre = true -> all_visible core = true ->
        is_ascii_space post = true ->
        build_whatsapp_link (pre ++ core ++ post) message
        = "https://wa.me/"
          ++ (if startswith core "91" then core else "91" ++ core)
          ++ "?text=" ++ quote message)
  /\ (forall phone message,
        all_digits phone = true -> startswith phone "91" = true ->
        build_whatsapp_link phone message
        = "https://wa.me/" ++ phone ++ "?text=" ++ quote message)
  /\ (forall message,
        build_whatsapp_link "9123456789" message
        = "https://wa.me/9123456789?text=" ++ quote message).
Proof.
  split; [apply build_whatsapp_link_normalized|].
  split.
  { intros pre core post message Hpre Hcore Hpost.
    rewrite build_whatsapp_link_normalized. unfold normalized.
    now rewrite (strip_padded pre core post Hpre Hcore Hpost). }
  split; [|intros message; reflexivity].
  intros phone message Hd H91.
  rewrite build_whatsapp_link_normalized. unfold normalized.
  rewrite (strip_visible phone (all_digits_visible phone Hd)), H91.
  reflexivity.
Qed.

Lemma country_code_check_is_textual_witness :
  (forall message,
     build_whatsapp_link "9198765432" message
     = "https://wa.me/9198765432?text=" ++ quote message)
  /\ (forall message,
        build_whatsapp_link ("  " ++ "+919876543210" ++ " ") message
        = "https://wa.me/91+919876543210?text=" ++ quote message).
Proof.
  pose proof country_code_check_is_textual as [_ [Hpad [Hdigits _]]].
  split; intros message.
  - apply (Hdigits "9198765432" message); reflexivity.
  - apply (Hpad "  " "+919876543210" " " message); reflexivity.
Defined.

(** *** The message *)

Lemma contains_here (s rest : string) : contains (s ++ rest) s.
Proof. exists EmptyString, rest. reflexivity. Qed.

Lemma contains_skip (x y s : string) : contains y s -> contains (x ++ y) s.
Proof.
  intros [pre [post ->]]. exists (x ++ pre), post. now rewrite append_assoc.
Qed.

Lemma quote_byte_escaped (c : ascii) : url_escaped (quote_byte c) = true.
Proof.
  destruct c as [b0 b1 b2 b3 b4 b5 b6 b7].
  destruct b0, b1, b2, b3, b4, b5, b6, b7; reflexivity.
Qed.

Lemma quote_escaped (s : string) : url_escaped (quote s) = true.
Proof.
  unfold url_escaped. induction s as [|c s IH]; [reflexivity|].
  change (quote (String c s)) with (quote_byte c ++ quote s).
  pose proof (quote_byte_escaped c) as Hc. unfold url_escaped in Hc.
  now rewrite list_ascii_of_append, forallb_app, IH, Hc.
Qed.

Lemma unquote_quote_byte (c : ascii) (rest : string) :
  unquote (quote_byte c ++ rest) = String c (unquote rest).
Proof.
  destruct c as [b0 b1 b2 b3 b4 b5 b6 b7].
  destruct b0, b1, b2, b3, b4, b5, b6, b7; reflexivity.
Qed.

Lemma unquote_quote (s : string) : unquote (quote s) = s.
Proof.
  induction s as [|c s IH]; [reflexivity|].
  change (quote (String c s)) with (quote_byte c ++ quote s).
  now rewrite unquote_quote_byte, IH.
Qed.

Lemma sum_from_float (xs : list float) (a : float) :
  fold_left PyNum.add_float xs (PyNum.PyFloat a)
  = PyNum.PyFloat (fold_left PrimFloat.add xs a).
Proof.
  revert a. induction xs as [|x xs IH]; intros a; [reflexivity|].
  simpl. apply IH.
Qed.

(** The sum of at least one amount is a [float]. *)
Lemma sum_is_float (x : float) (xs : list float) :
  exists f, PyNum.sum (x :: xs) = PyNum.PyFloat f.
Proof.
  unfold PyNum.sum. simpl fold_left. unfold PyNum.add_float at 2.
  rewrite sum_from_float. eexists. reflexivity.
Qed.

(** C7: the reminder formatter. When the due calculator counts no unpaid
    month for the tenant the result is [None], no text at all. Otherwise
    the total due is a float [f] and the result is the link
    "https://wa.me/<number>?text=<quote(message)>", where the message is
    the text below with the tenant's name, the room number, the count of
    pending months in decimal and [f] as Python prints it; decoding the
    quoted text gives the message back, and the quoted text consists of
    unreserved characters and percent escapes only. *)
Theorem reminder_formatter (float_repr : float -> string) (st : db)
    (t : Tenant.t) :
  match calculate_due_for_tenant (Tenant.id t) st with
  | (O, _, _) => get_whatsapp_reminder_link float_repr t st = None
  | (S k, total_due, _) =>
    exists f message,
      total_due = PyNum.PyFloat f
      /\ message
         = "Hello " ++ Tenant.name t ++ "," ++ nl ++ nl
           ++ "Your rent is overdue." ++ nl
           ++ "Room No: " ++ Tenant.room_no t ++ nl
           ++ "Pending Months: " ++ str_int (Z.of_nat (S k)) ++ nl
           ++ "Total Due Amount: ₹" ++ float_repr f ++ nl ++ nl
           ++ "Please pay as soon as possible." ++ nl
           ++ "- Rent Management"
      /\ get_whatsapp_reminder_link float_repr t st
         = Some ("https://wa.me/" ++ normalized (Tenant.phone t)
                 ++ "?text=" ++ quote message)
      /\ unquote (quote message) = message
      /\ contains message (Tenant.name t)
      /\ contains message (Tenant.room_no t)
      /\ contains message (str_int (Z.of_nat (S k)))
      /\ contains message (float_repr f)
      /\ contains message (str_num float_repr total_due)
      /\ url_escaped (quote message) = true
  end.
Proof.
  unfold get_whatsapp_reminder_link, calculate_due_for_tenant.
  destruct (filter
              (fun d => (RentDue.tenant_id d =? Tenant.id t)%Z
                        && (RentDue.status d =? "unpaid"))
              (rent_dues st)) as [|d D]; [reflexivity|].
  cbn [List.length map].
  destruct (sum_is_float (RentDue.amount d) (map RentDue.amount D))
    as [f Hf].
  rewrite Hf.
  exists f, (reminder_message float_repr t (S (List.length D))
                              (PyNum.PyFloat f)).
  split; [reflexivity|]. split; [reflexivity|].
  split.
  { change (S (List.length D) =? 0)%nat with false. cbv iota.
    now rewrite build_whatsapp_link_normalized. }
  split; [apply unquote_quote|].
  unfold reminder_message.
  split; [apply contains_skip, contains_here|].
  split; [do 8 apply contains_skip; apply contains_here|].
  split; [do 11 apply contains_skip; apply contains_here|].
  split; [do 14 apply contains_skip; apply contains_here|].
  split; [do 14 apply contains_skip; apply contains_here|].
  apply quote_escaped.
Qed.

(** Ann owes three months in [ledger]; her total prints as "15000.0". In
    [one_tenant] she owes nothing. *)
Lemma reminder_formatter_witness :
  get_whatsapp_reminder_link (fun _ => "15000.0") ann ledger
  = Some ("https://wa.me/919876543210?text=Hello%20Ann%2C%0A%0A"
          ++ "Your%20rent%20is%20overdue.%0ARoom%20No%3A%20A1%0A"
          ++ "Pending%20Months%3A%203%0A"
          ++ "Total%20Due%20Amount%3A%20%E2%82%B915000.0%0A%0A"
          ++ "Please%20pay%20as%20soon%20as%20possible.%0A"
          ++ "-%20Rent%20Management")
  /\ get_whatsapp_reminder_link (fun _ => "15000.0") ann one_tenant = None.
Proof.
  split.
  - destruct (reminder_formatter (fun _ => "15000.0") ledger ann)
      as [f [message [Hf [Hm [Hlink _]]]]].
    rewrite Hlink, Hm. reflexivity.
  - exact (reminder_formatter (fun _ => "15000.0") one_tenant ann).
Defined.

End Links.

(** * Further properties of the store *)

(** ** Keys *)

Lemma find_by_key_unique {A : Type} (key : A -> Z) (k : Z) (l : list A) (x : A) :
  NoDup (map key l) -> In x l -> key x = k ->
  find (fun y => (key y =? k)%Z) l = Some x.
Proof.
  induction l as [|a l IH]; simpl; intros Hnd Hin Hk; [destruct Hin|].
  inversion Hnd as [|? ? Ha Hnd']; subst.
  destruct Hin as [->|Hin].
  - now rewrite Z.eqb_refl.
  - destruct (key a =? key x)%Z eqn:Heq; [|now apply IH].
    apply Z.eqb_eq in Heq. exfalso. apply Ha. rewrite Heq. now apply in_map.
Qed.

Lemma filter_by_key_unique {A : Type} (key : A -> Z) (k : Z) (l : list A)
    (x : A) :
  NoDup (map key l) -> In x l -> key x = k ->
  filter (fun y => (key y =? k)%Z) l = [x].
Proof.
  induction l as [|a l IH]; simpl; intros Hnd Hin Hk; [destruct Hin|].
  inversion Hnd as [|? ? Ha Hnd']; subst.
  destruct Hin as [->|Hin].
  - rewrite Z.eqb_refl. f_equal. apply filter_nothing. intros y Hy.
    apply Z.eqb_neq. intros Heq. apply Ha. rewrite <- Heq. now apply in_map.
  - destruct (key a =? key x)%Z eqn:Heq; [|now apply IH].
    apply Z.eqb_eq in Heq. exfalso. apply Ha. rewrite Heq. now apply in_map.
Qed.

Lemma get_due_in due_id st d :
  get_due due_id st = Some d -> In d (rent_dues st) /\ RentDue.id d = due_id.
Proof.
  unfold get_due. intros H. apply find_some in H.
  rewrite Z.eqb_eq in H. exact H.
Qed.

(** X1: at most one RentDue per tenant and month. In every store the
    application can reach, the rows of a tenant for a month are at most
    one, and two rows of the table with the same tenant and the same month
    are the same row. *)
Theorem one_due_per_tenant_and_month (st : db) :
  reachable st ->
  (forall tid m, (List.length (dues_of tid m st) <= 1)%nat)
  /\ forall d1 d2,
       In d1 (rent_dues st) -> In d2 (rent_dues st) ->
       RentDue.tenant_id d1 = RentDue.tenant_id d2 ->
       RentDue.month d1 = RentDue.month d2 ->
       d1 = d2.
Proof.
  intros Hreach.
  pose proof (inv_month _ (reachable_invariant st Hreach)) as Hmu.
  split; [exact Hmu|].
  intros d1 d2 H1 H2 Ht Hm.
  specialize (Hmu (RentDue.tenant_id d1) (RentDue.month d1)).
  assert (Hin : forall d, In d (rent_dues st) ->
                  RentDue.tenant_id d = RentDue.tenant_id d1 ->
                  RentDue.month d = RentDue.month d1 ->
                  In d (dues_of (RentDue.tenant_id d1) (RentDue.month d1) st)).
  { intros d Hd Hdt Hdm. unfold dues_of. apply filter_In.
    split; [exact Hd|]. rewrite Hdt, Hdm, Z.eqb_refl, String.eqb_refl.
    reflexivity. }
  pose proof (Hin d1 H1 eq_refl eq_refl) as I1.
  pose proof (Hin d2 H2 (eq_sym Ht) (eq_sym Hm)) as I2.
  destruct (dues_of (RentDue.tenant_id d1) (RentDue.month d1) st)
    as [|x [|y l]]; simpl in *.
  - destruct I1.
  - destruct I1 as [<-|[]], I2 as [<-|[]]. reflexivity.
  - lia.
Qed.

Lemma one_due_per_tenant_and_month_witness :
  (forall tid m, (List.length (dues_of tid m two_january) <= 1)%nat)
  /\ forall d1 d2,
       In d1 (rent_dues two_january) -> In d2 (rent_dues two_january) ->
       RentDue.tenant_id d1 = RentDue.tenant_id d2 ->
       RentDue.month d1 = RentDue.month d2 ->
       d1 = d2.
Proof.
  apply (one_due_per_tenant_and_month two_january).
  apply (reach_step _ (Scheduled "2025-01")), two_tenants_reachable.
Defined.

(** X2: keys and owners. In every reachable store the keys of each table
    are pairwise different, looking a row up by its key returns that very
    row, and every RentDue belongs to a tenant that [Tenant.query.get]
    finds. *)
Theorem keys_identify_rows (st : db) :
  reachable st ->
  NoDup (map Tenant.id (tenants st))
  /\ NoDup (map RentDue.id (rent_dues st))
  /\ (forall t, In t (tenants st) -> get_tenant (Tenant.id t) st = Some t)
  /\ (forall d, In d (rent_dues st) -> get_due (RentDue.id d) st = Some d)
  /\ forall d, In d (rent_dues st) ->
       exists t, get_tenant (RentDue.tenant_id d) st = Some t
                 /\ Tenant.id t = RentDue.tenant_id d.
Proof.
  intros Hreach.
  destruct (reachable_invariant st Hreach) as [Htpk Hdpk _ _ Hown].
  split; [exact Htpk|]. split; [exact Hdpk|].
  split; [|split].
  - intros t Ht. unfold get_tenant. now apply find_by_key_unique.
  - intros d Hd. unfold get_due. now apply find_by_key_unique.
  - intros d Hd. specialize (Hown d Hd). apply in_map_iff in Hown.
    destruct Hown as [t [Hid Ht]]. exists t. split; [|exact Hid].
    unfold get_tenant. now apply find_by_key_unique.
Qed.

Lemma keys_identify_rows_witness :
  NoDup (map Tenant.id (tenants two_january))
  /\ NoDup (map RentDue.id (rent_dues two_january))
  /\ (forall t, In t (tenants two_january) ->
        get_tenant (Tenant.id t) two_january = Some t)
  /\ (forall d, In d (rent_dues two_january) ->
        get_due (RentDue.id d) two_january = Some d)
  /\ forall d, In d (rent_dues two_january) ->
       exists t, get_tenant (RentDue.tenant_id d) two_january = Some t
                 /\ Tenant.id t = RentDue.tenant_id d.
Proof.
  apply (keys_identify_rows two_january).
  apply (reach_step _ (Scheduled "2025-01")), two_tenants_reachable.
Defined.

(** ** The session check and missing rows *)

(** X3: without a session nothing is written. Each guarded route answers
    a request without an admin session with the redirect to the login page
    and returns the store as it was; so does any sequence of such
    requests. *)
Theorem guarded_routes_need_login (st : db) :
  (forall post, add_tenant None post st = (Redirect "/login", st))
  /\ (forall tid post, edit_tenant None tid post st = (Redirect "/login", st))
  /\ (forall tid, delete_tenant None tid st = (Redirect "/login", st))
  /\ (forall m, generate_current_month None m st = (Redirect "/login", st))
  /\ (forall now due_id,
        mark_rent_paid None now due_id st = (Redirect "/login", st))
  /\ (forall due_id, mark_rent_unpaid None due_id st = (Redirect "/login", st))
  /\ forall rs, forallb unauthenticated rs = true -> handle_all rs st = st.
Proof.
  repeat (split; [reflexivity|]).
  intros rs. unfold handle_all. induction rs as [|r rs IH]; [reflexivity|].
  simpl. intros H. apply andb_true_iff in H. destruct H as [Hr Hrs].
  assert (Hst : handle r st = st).
  { destruct r as [[a|] ?|[a|] ? ?|[a|] ?|[a|] ?|?|[a|] ? ?|[a|] ?|? ?];
      first [discriminate Hr | reflexivity]. }
  rewrite Hst. now apply IH.
Qed.

Lemma guarded_routes_need_login_witness :
  handle_all [DeleteTenant None 1; MarkRentPaid None 0%Z 1;
              AddTenant None (Some bob_form)] two_january
  = two_january.
Proof.
  apply (proj2 (proj2 (proj2 (proj2 (proj2 (proj2
           (guarded_routes_need_login two_january))))))).
  reflexivity.
Defined.

Lemma find_key_absent {A : Type} (key : A -> Z) (k : Z) (l : list A) :
  ~ In k (map key l) -> find (fun y => (key y =? k)%Z) l = None.
Proof.
  intros Hk. apply find_none_filter, filter_nothing. intros x Hx.
  apply Z.eqb_neq. intros Heq. apply Hk. rewrite <- Heq. now apply in_map.
Qed.

(** X4: a key that is not in the table gives 404. For an admin and a key
    in the range of SQLite's integers (from 0 to below 2^63), editing or
    deleting a tenant whose key is not in the tenant table, and marking a
    due whose key is not in the due table, answer "not found" and return
    the store as it was; the fake-months route does the same for a missing
    tenant. *)
Theorem missing_row_is_not_found (st : db) (a : Z) :
  (forall tid, sqlite_key tid -> ~ In tid (map Tenant.id (tenants st)) ->
     (forall post, edit_tenant (Some a) tid post st = (NotFound, st))
     /\ delete_tenant (Some a) tid st = (NotFound, st)
     /\ forall ms, generate_fake_3_months tid ms st = (NotFound, st))
  /\ forall due_id, sqlite_key due_id ->
       ~ In due_id (map RentDue.id (rent_dues st)) ->
       (forall now, mark_rent_paid (Some a) now due_id st = (NotFound, st))
       /\ mark_rent_unpaid (Some a) due_id st = (NotFound, st).
Proof.
  split.
  - intros tid _ Hno.
    pose proof (find_key_absent Tenant.id tid (tenants st) Hno) as Hget.
    unfold edit_tenant, delete_tenant, generate_fake_3_months, get_tenant.
    simpl. rewrite Hget. repeat split.
  - intros due_id _ Hno.
    pose proof (find_key_absent RentDue.id due_id (rent_dues st) Hno) as Hget.
    unfold mark_rent_paid, mark_rent_unpaid, get_due.
    simpl. rewrite Hget. repeat split.
Qed.

Lemma missing_row_is_not_found_witness :
  delete_tenant (Some 1%Z) 9 two_january = (NotFound, two_january)
  /\ mark_rent_unpaid (Some 1%Z) 9 two_january = (NotFound, two_january).
Proof.
  pose proof (missing_row_is_not_found two_january 1%Z) as [Ht Hd].
  split.
  - apply (Ht 9%Z); [unfold sqlite_key; lia|].
    simpl. intros [H|[H|[]]]; discriminate H.
  - apply (Hd 9%Z); [unfold sqlite_key; lia|].
    simpl. intros [H|[H|[]]]; discriminate H.
Defined.

(** ** Paying and unpaying *)

Lemma same_key_same_row (l : list RentDue.t) (x d : RentDue.t) :
  NoDup (map RentDue.id l) -> In x l -> In d l ->
  RentDue.id x = RentDue.id d -> x = d.
Proof.
  intros Hnd Hx Hd Hid.
  pose proof (find_by_key_unique RentDue.id (RentDue.id d) l x Hnd Hx Hid) as H1.
  pose proof (find_by_key_unique RentDue.id (RentDue.id d) l d Hnd Hd eq_refl)
    as H2.
  congruence.
Qed.

Lemma set_unpaid_set_paid now d :
  RentDue.status d = "unpaid" -> RentDue.paid_date d = None ->
  set_unpaid (set_paid now d) = d.
Proof. destruct d. simpl. intros -> ->. reflexivity. Qed.

(** X5: paying and then unpaying is a round trip. In a reachable store,
    when an admin marks an unpaid due paid and then marks it unpaid again,
    the store is back to what it was, whatever the time of the payment. The
    other way round is no round trip: a paid due that is marked unpaid and
    paid again carries the new time as its paid date. *)
Theorem pay_then_unpay_round_trip (st : db) (a a' : Z) (now : datetime)
    (due_id : Z) (d : RentDue.t) :
  reachable st -> get_due due_id st = Some d ->
  (RentDue.status d = "unpaid" ->
   snd (mark_rent_unpaid (Some a') due_id
          (snd (mark_rent_paid (Some a) now due_id st))) = st)
  /\ (RentDue.status d = "paid" ->
      get_due due_id
        (snd (mark_rent_paid (Some a) now due_id
                (snd (mark_rent_unpaid (Some a') due_id st))))
      = Some (RentDue.mk (RentDue.id d) (RentDue.tenant_id d)
                         (RentDue.month d) (RentDue.amount d)
                         "paid" (Some now))).
Proof.
  intros Hreach Hget.
  destruct (reachable_invariant st Hreach) as [_ Hdpk Hst _ _].
  destruct (get_due_in _ _ _ Hget) as [Hin Hid].
  split; intros Hs.
  - assert (Hpd : RentDue.paid_date d = None).
    { rewrite Forall_forall in Hst.
      destruct (Hst d Hin) as [[_ Hp]|[Hp _]]; [exact Hp | congruence]. }
    unfold mark_rent_paid. simpl. rewrite Hget, Hs. simpl.
    unfold mark_rent_unpaid. simpl.
    rewrite (get_due_update_due _ _ _ (set_paid_keeps_key now)), Hget.
    simpl. destruct st as [ts ds]. unfold update_due. simpl. f_equal.
    rewrite map_map. rewrite <- (map_id ds) at 2.
    apply map_ext_in. intros x Hx. simpl in *.
    destruct (RentDue.id x =? due_id)%Z eqn:Hk; simpl; rewrite Hk;
      [|reflexivity].
    apply Z.eqb_eq in Hk.
    assert (x = d) as -> by (apply (same_key_same_row ds); congruence).
    now apply set_unpaid_set_paid.
  - unfold mark_rent_unpaid. simpl. rewrite Hget, Hs. simpl.
    unfold mark_rent_paid. simpl.
    rewrite (get_due_update_due _ _ _ set_unpaid_keeps_key), Hget. simpl.
    rewrite (get_due_update_due _ _ _ (set_paid_keeps_key now)).
    rewrite (get_due_update_due _ _ _ set_unpaid_keeps_key), Hget.
    reflexivity.
Qed.

Lemma pay_then_unpay_round_trip_witness :
  snd (mark_rent_unpaid (Some 1%Z) 1
         (snd (mark_rent_paid (Some 1%Z) 1736000000%Z 1 ann_january)))
  = ann_january
  /\ get_due 1
       (snd (mark_rent_paid (Some 1%Z) 1740000000%Z 1
               (snd (mark_rent_unpaid (Some 1%Z) 1 ann_paid))))
     = Some (RentDue.mk 1 1 "2025-01" 5000%float "paid" (Some 1740000000%Z)).
Proof.
  split.
  - apply (proj1 (pay_then_unpay_round_trip ann_january 1%Z 1%Z 1736000000%Z
                    1%Z (RentDue.mk 1 1 "2025-01" 5000%float "unpaid" None)
                    (reach_step _ (Scheduled "2025-01")
                       (reach_step _ (AddTenant (Some 1%Z) (Some ann_form))
                          reach_init))
                    eq_refl)).
    reflexivity.
  - apply (proj2 (pay_then_unpay_round_trip ann_paid 1%Z 1%Z 1740000000%Z
                    1%Z (RentDue.mk 1 1 "2025-01" 5000%float "paid"
                                    (Some 1736000000%Z))
                    ann_paid_reachable eq_refl)).
    reflexivity.
Defined.

(** ** What the due calculator sees after an operation *)

Lemma filter_split_length {A : Type} (f : A -> bool) (l : list A) :
  (List.length (filter f l) + List.length (filter (fun x => negb (f x)) l))%nat
  = List.length l.
Proof.
  induction l as [|a l IH]; simpl; [reflexivity|].
  destruct (f a); simpl; lia.
Qed.

Lemma unpaid_after_set_paid tid due_id now (l : list RentDue.t) :
  filter (is_unpaid_of tid)
    (map (fun d => if (RentDue.id d =? due_id)%Z then set_paid now d else d) l)
  = filter (fun d => negb (RentDue.id d =? due_id)%Z)
           (filter (is_unpaid_of tid) l).
Proof.
  induction l as [|x l IH]; simpl; [reflexivity|].
  destruct (RentDue.id x =? due_id)%Z eqn:Hk.
  - replace (is_unpaid_of tid (set_paid now x)) with false
      by (unfold is_unpaid_of; simpl; now rewrite andb_false_r).
    destruct (is_unpaid_of tid x); simpl; rewrite ?Hk; exact IH.
  - destruct (is_unpaid_of tid x); simpl; rewrite ?Hk; simpl; now rewrite IH.
Qed.

(** X6: paying a due takes exactly that month off the tenant's account.
    In a reachable store, after an admin marked the unpaid due [d] paid,
    the due calculator returns for the owning tenant the unpaid rows it
    returned before without [d], one month fewer, and the sum of the
    remaining amounts; for every other tenant it returns what it returned
    before. *)
Theorem paying_takes_one_month_off (st : db) (a : Z) (now : datetime)
    (due_id : Z) (d : RentDue.t) :
  reachable st -> get_due due_id st = Some d ->
  RentDue.status d = "unpaid" ->
  exists D D',
    calculate_due_for_tenant (RentDue.tenant_id d) st
    = (S (List.length D'), PyNum.sum (map RentDue.amount D), D)
    /\ calculate_due_for_tenant (RentDue.tenant_id d)
         (snd (mark_rent_paid (Some a) now due_id st))
       = (List.length D', PyNum.sum (map RentDue.amount D'), D')
    /\ In d D
    /\ D' = filter (fun x => negb (RentDue.id x =? due_id)%Z) D
    /\ forall tid, tid <> RentDue.tenant_id d ->
         calculate_due_for_tenant tid
           (snd (mark_rent_paid (Some a) now due_id st))
         = calculate_due_for_tenant tid st.
Proof.
  intros Hreach Hget Hs.
  destruct (reachable_invariant st Hreach) as [_ Hdpk _ _ _].
  destruct (get_due_in _ _ _ Hget) as [Hin Hid].
  set (tid := RentDue.tenant_id d).
  set (D := filter (is_unpaid_of tid) (rent_dues st)).
  exists D, (filter (fun x => negb (RentDue.id x =? due_id)%Z) D).
  assert (HdD : In d D).
  { apply filter_In. split; [exact Hin|]. unfold is_unpaid_of, tid.
    now rewrite Z.eqb_refl, Hs. }
  assert (Hone : filter (fun x => (RentDue.id x =? due_id)%Z) D = [d]).
  { apply (filter_by_key_unique RentDue.id); [|exact HdD | exact Hid].
    now apply NoDup_map_filter. }
  pose proof (filter_split_length (fun x => (RentDue.id x =? due_id)%Z) D)
    as Hlen.
  rewrite Hone in Hlen. simpl in Hlen.
  assert (Hafter : rent_dues (snd (mark_rent_paid (Some a) now due_id st))
                   = map (fun x => if (RentDue.id x =? due_id)%Z
                                   then set_paid now x else x)
                         (rent_dues st)).
  { unfold mark_rent_paid. simpl. rewrite Hget, Hs. reflexivity. }
  split; [|split; [|split; [exact HdD | split; [reflexivity|]]]].
  - unfold calculate_due_for_tenant. fold (is_unpaid_of tid). fold D.
    now rewrite <- Hlen.
  - unfold calculate_due_for_tenant. fold (is_unpaid_of tid).
    rewrite Hafter, unpaid_after_set_paid. reflexivity.
  - intros tid' Hne. unfold calculate_due_for_tenant.
    fold (is_unpaid_of tid'). rewrite Hafter.
    assert (Hsame :
      filter (is_unpaid_of tid')
        (map (fun x => if (RentDue.id x =? due_id)%Z then set_paid now x else x)
             (rent_dues st))
      = filter (is_unpaid_of tid') (rent_dues st)).
    { rewrite unpaid_after_set_paid. apply filter_all. intros x Hx.
      apply filter_In in Hx. destruct Hx as [Hx Hp].
      apply negb_true_iff, Z.eqb_neq. intros Hk.
      assert (x = d) as -> by (apply (same_key_same_row (rent_dues st));
                               congruence).
      unfold is_unpaid_of in Hp. apply andb_true_iff in Hp.
      destruct Hp as [Hp _]. apply Z.eqb_eq in Hp. now apply Hne. }
    now rewrite Hsame.
Qed.

Lemma paying_takes_one_month_off_witness :
  exists D D',
    calculate_due_for_tenant 1 two_january
    = (S (List.length D'), PyNum.sum (map RentDue.amount D), D)
    /\ calculate_due_for_tenant 1
         (snd (mark_rent_paid (Some 1%Z) 1736000000%Z 1 two_january))
       = (List.length D', PyNum.sum (map RentDue.amount D'), D')
    /\ In (RentDue.mk 1 1 "2025-01" 5000%float "unpaid" None) D
    /\ D' = filter (fun x => negb (RentDue.id x =? 1)%Z) D
    /\ forall tid, tid <> 1%Z ->
         calculate_due_for_tenant tid
           (snd (mark_rent_paid (Some 1%Z) 1736000000%Z 1 two_january))
         = calculate_due_for_tenant tid two_january.
Proof.
  apply (paying_takes_one_month_off two_january 1%Z 1736000000%Z 1%Z
           (RentDue.mk 1 1 "2025-01" 5000%float "unpaid" None)).
  - apply (reach_step _ (Scheduled "2025-01")), two_tenants_reachable.
  - reflexivity.
  - reflexivity.
Defined.

(** ** The rows a run of the month generator adds *)

Lemma due_for_generate_for_other m st a tid m' :
  Tenant.id a <> tid ->
  due_for tid m' (generate_for m st a) = due_for tid m' st.
Proof.
  intros Hne. now rewrite !due_for_hd, dues_of_generate_for_other.
Qed.

Lemma generated_for_more m a l d :
  generated_for m l d -> generated_for m (a :: l) d.
Proof.
  intros [Hm [Hs [Hp [t [Ht Heq]]]]]. repeat split; try assumption.
  exists t. split; [now right | exact Heq].
Qed.

Lemma generate_fold_new_rows m l st :
  NoDup (map Tenant.id l) ->
  exists new,
    rent_dues (fold_left (generate_for m) l st) = rent_dues st ++ new
    /\ List.length new = List.length (filter (lacks_due m st) l)
    /\ Forall (generated_for m l) new.
Proof.
  revert st. induction l as [|a l IH]; intros st Hnd.
  - exists []. simpl. rewrite app_nil_r. repeat split. constructor.
  - simpl in Hnd. inversion Hnd as [|? ? Ha Hnd']; subst.
    destruct (IH (generate_for m st a) Hnd') as [new1 [Hrows [Hlen Hall]]].
    assert (Hsame : filter (lacks_due m (generate_for m st a)) l
                    = filter (lacks_due m st) l).
    { apply filter_ext_in. intros t Ht. unfold lacks_due.
      rewrite due_for_generate_for_other; [reflexivity|].
      intros Heq. apply Ha. rewrite Heq. now apply in_map. }
    rewrite Hsame in Hlen.
    assert (Hall' : Forall (generated_for m (a :: l)) new1).
    { eapply Forall_impl; [|exact Hall]. intros d. apply generated_for_more. }
    simpl fold_left. simpl filter. unfold lacks_due at 1.
    unfold generate_for in Hrows |- *.
    destruct (due_for (Tenant.id a) m st) eqn:Hd.
    + exists new1. repeat split; assumption.
    + exists (RentDue.mk (next_id (map RentDue.id (rent_dues st)))
                         (Tenant.id a) m (Tenant.monthly_rent a) "unpaid" None
              :: new1).
      split; [|split].
      * rewrite Hrows. simpl. now rewrite <- app_assoc.
      * simpl. now rewrite Hlen.
      * constructor; [|exact Hall'].
        repeat split. exists a. split; [now left | split; reflexivity].
Qed.

(** X7: what a run of the month generator writes. In a reachable store a
    run for the month [m] leaves the tenant table alone and appends to the
    due table exactly one row for each tenant that had no entry for [m]:
    the number of new rows is the number of such tenants, and each new row
    is for [m], unpaid, without paid date, and carries the key and the
    monthly rent of a tenant of the store. *)
Theorem generator_adds_one_row_per_missing_entry (st : db) (m : string) :
  reachable st ->
  tenants (generate_current_month_rent m st) = tenants st
  /\ exists new,
       rent_dues (generate_current_month_rent m st) = rent_dues st ++ new
       /\ List.length new
          = List.length (filter (lacks_due m st) (tenants st))
       /\ Forall (generated_for m (tenants st)) new.
Proof.
  intros Hreach. split; [apply tenants_generate|].
  apply generate_fold_new_rows.
  apply (inv_tenant_pk _ (reachable_invariant st Hreach)).
Qed.

(** Bob has his January due already, Ann has none. *)
Lemma bob_january_reachable :
  reachable (handle (AddTenant (Some 1%Z) (Some ann_form))
               (handle (Scheduled "2025-01")
                  (handle (AddTenant (Some 1%Z) (Some bob_form)) empty_db))).
Proof. do 3 apply reach_step. apply reach_init. Qed.

Lemma generator_adds_one_row_per_missing_entry_witness :
  exists new,
    rent_dues (generate_current_month_rent "2025-01"
                 (handle (AddTenant (Some 1%Z) (Some ann_form))
                    (handle (Scheduled "2025-01")
                       (handle (AddTenant (Some 1%Z) (Some bob_form))
                          empty_db))))
    = [RentDue.mk 1 1 "2025-01" 7500%float "unpaid" None] ++ new
    /\ List.length new = 1%nat.
Proof.
  destruct (proj2 (generator_adds_one_row_per_missing_entry _ "2025-01"
                     bob_january_reachable)) as [new [Hrows [Hlen _]]].
  exists new. split; [exact Hrows | exact Hlen].
Defined.

Lemma unpaid_of_generated m ts tid new :
  Forall (generated_for m ts) new ->
  filter (is_unpaid_of tid) new
  = filter (fun d => (RentDue.tenant_id d =? tid)%Z
                     && (RentDue.month d =? m)%string) new.
Proof.
  intros Hall. apply filter_ext_in. intros d Hd.
  rewrite Forall_forall in Hall. destruct (Hall d Hd) as [Hm [Hs _]].
  unfold is_unpaid_of. now rewrite Hm, Hs, !String.eqb_refl.
Qed.

(** X8: what a run of the month generator does to a tenant's account. In
    a reachable store, for a tenant without an entry for the month the due
    calculator returns after the run one month more, the sum of the old
    amounts and the tenant's monthly rent, and the old rows followed by the
    new one; for a tenant that has an entry it returns what it returned
    before. (The total is [sum] of the list of amounts; nothing is said
    about how [sum] rounds.) *)
Theorem generation_adds_one_unpaid_month (st : db) (m : string) (t : Tenant.t)
    (n : nat) (s : PyNum.t) (D : list RentDue.t) :
  reachable st -> In t (tenants st) ->
  calculate_due_for_tenant (Tenant.id t) st = (n, s, D) ->
  (dues_of (Tenant.id t) m st = [] ->
   exists due_id,
     calculate_due_for_tenant (Tenant.id t) (generate_current_month_rent m st)
     = (S n,
        PyNum.sum (map RentDue.amount D ++ [Tenant.monthly_rent t]),
        D ++ [RentDue.mk due_id (Tenant.id t) m (Tenant.monthly_rent t)
                         "unpaid" None]))
  /\ (dues_of (Tenant.id t) m st <> [] ->
      calculate_due_for_tenant (Tenant.id t) (generate_current_month_rent m st)
      = (n, s, D)).
Proof.
  intros Hreach Ht Hcalc.
  pose proof (reachable_invariant st Hreach) as Hinv.
  destruct (generate_fold_new_rows m (tenants st) st (inv_tenant_pk _ Hinv))
    as [new [Hrows [_ Hall]]].
  fold (generate_current_month_rent m st) in Hrows.
  assert (Hkey : dues_of (Tenant.id t) m (generate_current_month_rent m st)
                 = dues_of (Tenant.id t) m st
                   ++ filter (is_unpaid_of (Tenant.id t)) new).
  { unfold dues_of. rewrite Hrows, filter_app.
    now rewrite (unpaid_of_generated m (tenants st) _ new Hall). }
  assert (Hafter :
    calculate_due_for_tenant (Tenant.id t) (generate_current_month_rent m st)
    = (List.length (D ++ filter (is_unpaid_of (Tenant.id t)) new),
       PyNum.sum (map RentDue.amount
                      (D ++ filter (is_unpaid_of (Tenant.id t)) new)),
       D ++ filter (is_unpaid_of (Tenant.id t)) new)).
  { unfold calculate_due_for_tenant in Hcalc |- *.
    fold (is_unpaid_of (Tenant.id t)) in Hcalc |- *.
    rewrite Hrows, filter_app. now inversion Hcalc. }
  assert (Hn : n = List.length D /\ s = PyNum.sum (map RentDue.amount D)).
  { unfold calculate_due_for_tenant in Hcalc. now inversion Hcalc. }
  destruct Hn as [-> ->].
  split; intros Hnone.
  - destruct (generate_fold_creates m (tenants st) st t
                (inv_tenant_pk _ Hinv) Ht Hnone) as [due_id [Hd _]].
    fold (generate_current_month_rent m st) in Hd.
    rewrite Hkey, Hnone in Hd. simpl in Hd.
    exists due_id. rewrite Hafter, Hd, map_app. simpl map.
    rewrite length_app. simpl. now rewrite Nat.add_1_r.
  - pose proof (inv_month _ (generate_invariant m st Hinv) (Tenant.id t) m)
      as Hle.
    rewrite Hkey, length_app in Hle.
    destruct (dues_of (Tenant.id t) m st) as [|x l]; [tauto|].
    destruct (filter (is_unpaid_of (Tenant.id t)) new) as [|y l'] eqn:Hnew;
      [|simpl in Hle; lia].
    rewrite Hafter, app_nil_r. reflexivity.
Qed.

Lemma generation_adds_one_unpaid_month_witness :
  (exists due_id,
     calculate_due_for_tenant 1 (generate_current_month_rent "2025-02" ann_january)
     = (2%nat, PyNum.PyFloat 10000%float,
        [RentDue.mk 1 1 "2025-01" 5000%float "unpaid" None]
        ++ [RentDue.mk due_id 1 "2025-02" 5000%float "unpaid" None]))
  /\ calculate_due_for_tenant 1 (generate_current_month_rent "2025-01" ann_january)
     = (1%nat, PyNum.PyFloat 5000%float,
        [RentDue.mk 1 1 "2025-01" 5000%float "unpaid" None]).
Proof.
  assert (Hreach : reachable ann_january).
  { apply (reach_step _ (Scheduled "2025-01")).
    apply (reach_step _ (AddTenant (Some 1%Z) (Some ann_form))), reach_init. }
  split.
  - apply (proj1 (generation_adds_one_unpaid_month ann_january "2025-02" ann
                    1%nat (PyNum.PyFloat 5000%float)
                    [RentDue.mk 1 1 "2025-01" 5000%float "unpaid" None]
                    Hreach (or_introl eq_refl) eq_refl)).
    reflexivity.
  - apply (proj2 (generation_adds_one_unpaid_month ann_january "2025-01" ann
                    1%nat (PyNum.PyFloat 5000%float)
                    [RentDue.mk 1 1 "2025-01" 5000%float "unpaid" None]
                    Hreach (or_introl eq_refl) eq_refl)).
    discriminate.
Defined.

(** ** Adding and editing tenants *)

(** X9: a new tenant starts with a clean account. In a reachable store,
    for a form whose rent SQLite stores as given (no NaN, no negative
    zero), adding a tenant appends one row to the tenant table under a key
    no tenant of the store has, with the fields of the form, and leaves the
    due table alone; no RentDue refers to the new key (also when a deleted
    tenant had it before), so the due calculator returns (0, 0, []) and
    there is no reminder link for the new tenant. *)
Theorem new_tenant_starts_clean (st : db) (a : Z) (f : tenant_form)
    (float_repr : float -> string) :
  reachable st -> storable_rent (f_monthly_rent f) = true ->
  exists t,
    t = Tenant.mk (next_id (map Tenant.id (tenants st)))
                  (f_name f) (f_phone f) (f_room_no f) (f_monthly_rent f)
    /\ add_tenant (Some a) (Some f) st
       = (Redirect "/tenants", mkdb (tenants st ++ [t]) (rent_dues st))
    /\ ~ In (Tenant.id t) (map Tenant.id (tenants st))
    /\ get_tenant (Tenant.id t) (snd (add_tenant (Some a) (Some f) st)) = Some t
    /\ dues_by_tenant (Tenant.id t) (snd (add_tenant (Some a) (Some f) st)) = []
    /\ calculate_due_for_tenant (Tenant.id t)
         (snd (add_tenant (Some a) (Some f) st))
       = (0%nat, PyNum.PyInt 0, [])
    /\ get_whatsapp_reminder_link float_repr t
         (snd (add_tenant (Some a) (Some f) st)) = None.
Proof.
  intros Hreach _.
  pose proof (inv_owner _ (reachable_invariant st Hreach)) as Hown.
  pose proof (next_id_fresh (map Tenant.id (tenants st))) as Hfresh.
  set (k := next_id (map Tenant.id (tenants st))) in *.
  exists (Tenant.mk k (f_name f) (f_phone f) (f_room_no f) (f_monthly_rent f)).
  assert (Hno : forall p,
            filter (fun d => (RentDue.tenant_id d =? k)%Z && p d) (rent_dues st)
            = []).
  { intros p. apply filter_nothing. intros d Hd.
    destruct (RentDue.tenant_id d =? k)%Z eqn:Hk; [|reflexivity].
    apply Z.eqb_eq in Hk. exfalso. apply Hfresh. rewrite <- Hk.
    now apply Hown. }
  assert (Hcalc : calculate_due_for_tenant k
                    (mkdb (tenants st
                           ++ [Tenant.mk k (f_name f) (f_phone f) (f_room_no f)
                                         (f_monthly_rent f)])
                          (rent_dues st))
                  = (0%nat, PyNum.PyInt 0, [])).
  { unfold calculate_due_for_tenant. simpl rent_dues. now rewrite Hno. }
  split; [reflexivity|]. split; [reflexivity|]. split; [exact Hfresh|].
  change (snd (add_tenant (Some a) (Some f) st))
    with (mkdb (tenants st
                ++ [Tenant.mk k (f_name f) (f_phone f) (f_room_no f)
                              (f_monthly_rent f)])
               (rent_dues st)).
  change (Tenant.id (Tenant.mk k (f_name f) (f_phone f) (f_room_no f)
                               (f_monthly_rent f))) with k.
  split; [|split; [|split]].
  - unfold get_tenant. simpl tenants. rewrite find_none_app.
    + simpl. now rewrite Z.eqb_refl.
    + now apply find_key_absent.
  - unfold dues_by_tenant. simpl rent_dues.
    rewrite <- (Hno (fun _ => true)). apply filter_ext. intros d.
    now rewrite andb_true_r.
  - exact Hcalc.
  - unfold get_whatsapp_reminder_link.
    change (Tenant.id (Tenant.mk k (f_name f) (f_phone f) (f_room_no f)
                                 (f_monthly_rent f))) with k.
    now rewrite Hcalc.
Qed.

(** Ann is deleted with her due, then Bob is added and gets her key. *)
Lemma new_tenant_starts_clean_witness :
  exists t,
    t = Tenant.mk 1 "Bob" "919812345678" "B2" 7500%float
    /\ add_tenant (Some 1%Z) (Some bob_form)
         (handle (DeleteTenant (Some 1%Z) 1) ann_january)
       = (Redirect "/tenants", mkdb ([] ++ [t]) [])
    /\ ~ In (Tenant.id t) []
    /\ get_tenant (Tenant.id t)
         (snd (add_tenant (Some 1%Z) (Some bob_form)
                 (handle (DeleteTenant (Some 1%Z) 1) ann_january))) = Some t
    /\ dues_by_tenant (Tenant.id t)
         (snd (add_tenant (Some 1%Z) (Some bob_form)
                 (handle (DeleteTenant (Some 1%Z) 1) ann_january))) = []
    /\ calculate_due_for_tenant (Tenant.id t)
         (snd (add_tenant (Some 1%Z) (Some bob_form)
                 (handle (DeleteTenant (Some 1%Z) 1) ann_january)))
       = (0%nat, PyNum.PyInt 0, [])
    /\ get_whatsapp_reminder_link (fun _ => "7500.0"%string) t
         (snd (add_tenant (Some 1%Z) (Some bob_form)
                 (handle (DeleteTenant (Some 1%Z) 1) ann_january))) = None.
Proof.
  apply (new_tenant_starts_clean
           (handle (DeleteTenant (Some 1%Z) 1) ann_january) 1%Z bob_form
           (fun _ => "7500.0"%string)).
  - apply reach_step. apply (reach_step _ (Scheduled "2025-01")).
    apply (reach_step _ (AddTenant (Some 1%Z) (Some ann_form))), reach_init.
  - reflexivity.
Defined.

(** X10: editing a tenant. In a reachable store, for a form whose rent
    SQLite stores as given (no NaN, no negative zero), editing the tenant
    [tid] replaces the four form fields of that row and keeps its key, leaves
    every other tenant and the due table as they were, and a later run of
    the month generator for a month without entry bills the new rent. *)
Theorem edit_tenant_changes_one_row (st : db) (a tid : Z) (f : tenant_form)
    (t : Tenant.t) (m : string) :
  reachable st -> storable_rent (f_monthly_rent f) = true ->
  get_tenant tid st = Some t ->
  get_tenant tid (snd (edit_tenant (Some a) tid (Some f) st))
  = Some (Tenant.mk tid (f_name f) (f_phone f) (f_room_no f) (f_monthly_rent f))
  /\ (forall tid', tid' <> tid ->
        get_tenant tid' (snd (edit_tenant (Some a) tid (Some f) st))
        = get_tenant tid' st)
  /\ map Tenant.id (tenants (snd (edit_tenant (Some a) tid (Some f) st)))
     = map Tenant.id (tenants st)
  /\ rent_dues (snd (edit_tenant (Some a) tid (Some f) st)) = rent_dues st
  /\ (dues_of tid m st = [] ->
      exists due_id,
        dues_of tid m
          (generate_current_month_rent m
             (snd (edit_tenant (Some a) tid (Some f) st)))
        = [RentDue.mk due_id tid m (f_monthly_rent f) "unpaid" None]).
Proof.
  intros Hreach _ Hget.
  pose proof (reach_step st (EditTenant (Some a) tid (Some f)) Hreach) as Hreach'.
  simpl handle in Hreach'.
  set (st' := snd (edit_tenant (Some a) tid (Some f) st)) in *.
  set (upd := fun x : Tenant.t =>
                if (Tenant.id x =? tid)%Z
                then Tenant.mk (Tenant.id x) (f_name f) (f_phone f)
                               (f_room_no f) (f_monthly_rent f)
                else x).
  assert (Hst' : st' = mkdb (map upd (tenants st)) (rent_dues st)).
  { unfold st', edit_tenant. simpl. now rewrite Hget. }
  assert (Hkey : forall k x, (Tenant.id (upd x) =? k)%Z = (Tenant.id x =? k)%Z).
  { intros k x. unfold upd. now destruct (Tenant.id x =? tid)%Z. }
  assert (Hfind : forall k,
            get_tenant k st' = option_map upd (get_tenant k st)).
  { intros k. rewrite Hst'. unfold get_tenant. simpl.
    apply find_map_same. apply Hkey. }
  assert (Hid : Tenant.id t = tid).
  { unfold get_tenant in Hget. apply find_some in Hget.
    now apply Z.eqb_eq. }
  assert (Hnew : get_tenant tid st'
                 = Some (Tenant.mk tid (f_name f) (f_phone f) (f_room_no f)
                                   (f_monthly_rent f))).
  { rewrite Hfind, Hget. simpl. unfold upd. rewrite Hid, Z.eqb_refl.
    reflexivity. }
  split; [exact Hnew|]. split; [|split; [|split]].
  - intros tid' Hne. rewrite Hfind.
    destruct (get_tenant tid' st) as [x|] eqn:Hx; [|reflexivity].
    unfold get_tenant in Hx. apply find_some in Hx. destruct Hx as [_ Hx].
    apply Z.eqb_eq in Hx. simpl. unfold upd.
    assert (Hk : (Tenant.id x =? tid)%Z = false)
      by (apply Z.eqb_neq; congruence).
    now rewrite Hk.
  - rewrite Hst'. simpl. rewrite map_map. apply map_ext. intros x.
    unfold upd. now destruct (Tenant.id x =? tid)%Z.
  - now rewrite Hst'.
  - intros Hnone.
    assert (Hin : In (Tenant.mk tid (f_name f) (f_phone f) (f_room_no f)
                                (f_monthly_rent f)) (tenants st')).
    { unfold get_tenant in Hnew. now apply find_some in Hnew. }
    destruct (generate_fold_creates m (tenants st') st' _
                (inv_tenant_pk _ (reachable_invariant st' Hreach')) Hin)
      as [due_id [Hd _]].
    { simpl. unfold dues_of in *. now rewrite Hst'. }
    exists due_id. exact Hd.
Qed.

Lemma edit_tenant_changes_one_row_witness :
  get_tenant 1 (snd (edit_tenant (Some 1%Z) 1 (Some ann_raise) ann_january))
  = Some (Tenant.mk 1 "Ann" "9876543210" "A1" 6000%float)
  /\ exists due_id,
       dues_of 1 "2025-02"
         (generate_current_month_rent "2025-02"
            (snd (edit_tenant (Some 1%Z) 1 (Some ann_raise) ann_january)))
       = [RentDue.mk due_id 1 "2025-02" 6000%float "unpaid" None].
Proof.
  assert (Hreach : reachable ann_january).
  { apply (reach_step _ (Scheduled "2025-01")).
    apply (reach_step _ (AddTenant (Some 1%Z) (Some ann_form))), reach_init. }
  pose proof (edit_tenant_changes_one_row ann_january 1%Z 1%Z ann_raise ann
                "2025-02" Hreach eq_refl eq_refl) as [Hget [_ [_ [_ Hgen]]]].
  split; [exact Hget | apply Hgen; reflexivity].
Defined.

(** ** The months of the fake-months route *)

Lemma days_in_month_not_february (y y' m : Z) :
  m <> 2%Z -> Date.days_in_month y m = Date.days_in_month y' m.
Proof.
  intros Hm. unfold Date.days_in_month.
  apply Z.eqb_neq in Hm. now rewrite Hm.
Qed.

Lemma yesterday_rel_year leap dy m d dy' m' d' :
  yesterday_rel leap (dy, m, d) = Some (dy', m', d') -> (dy' <= dy)%Z.
Proof.
  unfold yesterday_rel.
  destruct (1 <? d)%Z; [intros H; inversion H; lia|].
  destruct (1 <? m)%Z; [|intros H; inversion H; lia].
  destruct (m - 1 =? 2)%Z; [|intros H; inversion H; lia].
  destruct (dy =? 0)%Z; [intros H; inversion H; lia | discriminate].
Qed.

Lemma minus_days_rel_year leap n x x' :
  minus_days_rel leap n x = Some x' -> (fst (fst x') <= fst (fst x))%Z.
Proof.
  revert x. induction n as [|n IH]; intros x; simpl.
  - intros H. inversion H. lia.
  - destruct (yesterday_rel leap x) as [p|] eqn:Hp; [|discriminate].
    intros H. specialize (IH p H).
    destruct x as [[dy m] d], p as [[dy1 m1] d1].
    apply yesterday_rel_year in Hp. simpl in *. lia.
Qed.

Lemma yesterday_rel_sound y leap dy m d dy' m' d' :
  Date.is_leap y = leap -> (1 < y + dy')%Z ->
  yesterday_rel leap (dy, m, d) = Some (dy', m', d') ->
  Date.yesterday (Date.mk (y + dy) m d) = Some (Date.mk (y + dy') m' d').
Proof.
  intros Hl Hy. unfold yesterday_rel, Date.yesterday. simpl.
  destruct (1 <? d)%Z; [intros H; inversion H; subst; reflexivity|].
  destruct (1 <? m)%Z.
  - destruct (m - 1 =? 2)%Z eqn:Hm.
    + destruct (dy =? 0)%Z eqn:Hdy; [|discriminate].
      apply Z.eqb_eq in Hm, Hdy. intros H. inversion H; subst.
      rewrite Hm. unfold Date.days_in_month. simpl.
      now rewrite Z.add_0_r.
    + apply Z.eqb_neq in Hm. intros H. inversion H; subst.
      now rewrite (days_in_month_not_february (y + dy') 1 (m - 1) Hm).
  - intros H. inversion H; subst.
    assert (Hlt : (1 <? y + dy)%Z = true) by (apply Z.ltb_lt; lia).
    rewrite Hlt. do 2 f_equal. lia.
Qed.

Lemma minus_days_rel_sound y leap n x x' :
  Date.is_leap y = leap -> (1 < y + fst (fst x'))%Z ->
  minus_days_rel leap n x = Some x' ->
  Date.minus_days n (Date.mk (y + fst (fst x)) (snd (fst x)) (snd x))
  = Some (Date.mk (y + fst (fst x')) (snd (fst x')) (snd x')).
Proof.
  intros Hl Hy. revert x. induction n as [|n IH]; intros x; simpl.
  - intros H. now inversion H.
  - destruct (yesterday_rel leap x) as [p|] eqn:Hp; [|discriminate].
    intros H. pose proof (minus_days_rel_year _ _ _ _ H) as Hle.
    destruct x as [[dy m] d], p as [[dy1 m1] d1]. simpl in *.
    rewrite (yesterday_rel_sound y leap dy m d dy1 m1 d1 Hl); [|lia|exact Hp].
    exact (IH (dy1, m1, d1) H).
Qed.

Lemma fake_months_rel y m d leap r1 r2 r3 :
  Date.is_leap y = leap -> (2 < y)%Z ->
  minus_days_rel leap 30 (0, m, 1)%Z = Some r1 ->
  minus_days_rel leap 60 (0, m, 1)%Z = Some r2 ->
  minus_days_rel leap 90 (0, m, 1)%Z = Some r3 ->
  (-1 <= fst (fst r1))%Z -> (-1 <= fst (fst r2))%Z -> (-1 <= fst (fst r3))%Z ->
  fake_months (Date.mk y m d)
  = Some [key_rel y r1; key_rel y r2; key_rel y r3].
Proof.
  intros Hl Hy H1 H2 H3 Y1 Y2 Y3. unfold fake_months.
  change (seq 0 3) with [0; 1; 2]%nat. cbn [map].
  change (30 * (0 + 1))%nat with 30%nat.
  change (30 * (1 + 1))%nat with 60%nat.
  change (30 * (2 + 1))%nat with 90%nat.
  unfold Date.replace_day. cbn [Date.year Date.month].
  pose proof (minus_days_rel_sound y leap 30 (0, m, 1)%Z r1 Hl) as S1.
  pose proof (minus_days_rel_sound y leap 60 (0, m, 1)%Z r2 Hl) as S2.
  pose proof (minus_days_rel_sound y leap 90 (0, m, 1)%Z r3 Hl) as S3.
  specialize (S1 ltac:(lia) H1). specialize (S2 ltac:(lia) H2).
  specialize (S3 ltac:(lia) H3).
  cbn [fst snd] in S1, S2, S3. rewrite Z.add_0_r in S1, S2, S3.
  rewrite S1, S2, S3.
  destruct r1 as [[? ?] ?], r2 as [[? ?] ?], r3 as [[? ?] ?].
  reflexivity.
Qed.

Ltac fake_months_by_rel :=
  erewrite fake_months_rel;
    [ | eassumption | lia
      | vm_compute; reflexivity | vm_compute; reflexivity
      | vm_compute; reflexivity
      | vm_compute; discriminate | vm_compute; discriminate
      | vm_compute; discriminate ];
  unfold key_rel; rewrite ?Z.add_0_r; reflexivity.

(** X11: the fake months are not always the last three months. For a day
    [today] after the year 1000, the list [fake_months] that
    [generate_fake_3_months] builds holds the keys of the three months
    before today's month, newest first, unless today is in March, or in
    April or May of a year that is no leap year. In those months the first
    of the month minus 30, 60 and 90 days skips February: the list is
    January, December, December in March (January, January, December in a
    leap year), March, January, January in April and April, March, January
    in May. *)
Theorem fake_months_skip_february (today : Date.t) :
  Date.valid today -> (1000 < Date.year today)%Z ->
  let y := Date.year today in
  let m := Date.month today in
  (m <> 3%Z -> (Date.is_leap y = true \/ (m <> 4%Z /\ m <> 5%Z)) ->
   fake_months today
   = Some [months_back 1 y m; months_back 2 y m; months_back 3 y m])
  /\ (m = 3%Z -> Date.is_leap y = false ->
      fake_months today
      = Some [month_key y 1; month_key (y - 1) 12; month_key (y - 1) 12])
  /\ (m = 3%Z -> Date.is_leap y = true ->
      fake_months today
      = Some [month_key y 1; month_key y 1; month_key (y - 1) 12])
  /\ (m = 4%Z -> Date.is_leap y = false ->
      fake_months today
      = Some [month_key y 3; month_key y 1; month_key y 1])
  /\ (m = 5%Z -> Date.is_leap y = false ->
      fake_months today
      = Some [month_key y 4; month_key y 3; month_key y 1]).
Proof.
  destruct today as [y m d]. unfold Date.valid. simpl.
  intros [_ [Hm _]] Hy.
  split; [|repeat split; intros -> Hl; fake_months_by_rel].
  intros H3 H45.
  destruct (Date.is_leap y) eqn:Hl.
  - assert (Hcases : (m = 1 \/ m = 2 \/ m = 4 \/ m = 5 \/ m = 6 \/ m = 7
                      \/ m = 8 \/ m = 9 \/ m = 10 \/ m = 11 \/ m = 12)%Z)
      by lia.
    repeat (destruct Hcases as [->|Hcases]; [fake_months_by_rel|]).
    subst m. fake_months_by_rel.
  - assert (Hcases : (m = 1 \/ m = 2 \/ m = 6 \/ m = 7
                      \/ m = 8 \/ m = 9 \/ m = 10 \/ m = 11 \/ m = 12)%Z)
      by (destruct H45 as [H|H]; [discriminate | lia]).
    repeat (destruct Hcases as [->|Hcases]; [fake_months_by_rel|]).
    subst m. fake_months_by_rel.
Qed.

Lemma fake_months_skip_february_witness :
  fake_months (Date.mk 2025 8 20) = Some ["2025-07"; "2025-06"; "2025-05"]
  /\ fake_months (Date.mk 2025 3 15) = Some ["2025-01"; "2024-12"; "2024-12"]
  /\ fake_months (Date.mk 2024 3 15) = Some ["2024-01"; "2024-01"; "2023-12"]
  /\ fake_months (Date.mk 2025 4 1) = Some ["2025-03"; "2025-01"; "2025-01"]
  /\ fake_months (Date.mk 2025 5 31) = Some ["2025-04"; "2025-03"; "2025-01"].
Proof.
  assert (V1 : Date.valid (Date.mk 2025 8 20))
    by (repeat split; vm_compute; discriminate).
  assert (V2 : Date.valid (Date.mk 2025 3 15))
    by (repeat split; vm_compute; discriminate).
  assert (V3 : Date.valid (Date.mk 2024 3 15))
    by (repeat split; vm_compute; discriminate).
  assert (V4 : Date.valid (Date.mk 2025 4 1))
    by (repeat split; vm_compute; discriminate).
  assert (V5 : Date.valid (Date.mk 2025 5 31))
    by (repeat split; vm_compute; discriminate).
  split; [|split; [|split; [|split]]].
  - apply (proj1 (fake_months_skip_february _ V1 eq_refl)).
    + discriminate.
    + right. split; discriminate.
  - apply (proj1 (proj2 (fake_months_skip_february _ V2 eq_refl)));
      reflexivity.
  - apply (proj1 (proj2 (proj2 (fake_months_skip_february _ V3 eq_refl))));
      reflexivity.
  - apply (proj1 (proj2 (proj2 (proj2
             (fake_months_skip_february _ V4 eq_refl))))); reflexivity.
  - apply (proj2 (proj2 (proj2 (proj2
             (fake_months_skip_february _ V5 eq_refl))))); reflexivity.
Defined.

(** ** The fake-months route *)

Lemma dues_of_fake_for_other tid rent st a m :
  a <> m -> dues_of tid m (fake_for tid rent st a) = dues_of tid m st.
Proof.
  intros Hne. unfold fake_for. destruct (due_for tid a st); [reflexivity|].
  rewrite dues_of_add_due. apply String.eqb_neq in Hne.
  rewrite Hne, andb_false_r. apply app_nil_r.
Qed.

Lemma fake_for_present tid rent st m :
  due_for tid m st <> None -> fake_for tid rent st m = st.
Proof. unfold fake_for. destruct (due_for tid m st); tauto. Qed.

Lemma due_for_present tid m st :
  due_for tid m st <> None <-> dues_of tid m st <> [].
Proof. now rewrite due_for_none. Qed.

Lemma fake_fold_keeps tid rent ms st m :
  dues_of tid m st <> [] ->
  dues_of tid m (fold_left (fake_for tid rent) ms st) = dues_of tid m st.
Proof.
  revert st. induction ms as [|a ms IH]; intros st H; simpl; [reflexivity|].
  destruct (string_dec a m) as [->|Hne].
  - rewrite fake_for_present; [now apply IH | now apply due_for_present].
  - rewrite IH; rewrite dues_of_fake_for_other; auto.
Qed.

Lemma fake_fold_creates tid rent ms st m :
  In m ms -> dues_of tid m st = [] ->
  exists due_id,
    dues_of tid m (fold_left (fake_for tid rent) ms st)
    = [RentDue.mk due_id tid m rent "unpaid" None].
Proof.
  revert st. induction ms as [|a ms IH]; intros st Hin Hnone; [destruct Hin|].
  simpl. destruct (string_dec a m) as [->|Hne].
  - exists (next_id (map RentDue.id (rent_dues st))).
    assert (Hstep : dues_of tid m (fake_for tid rent st m)
                    = [RentDue.mk (next_id (map RentDue.id (rent_dues st)))
                                  tid m rent "unpaid" None]).
    { unfold fake_for. rewrite (proj2 (due_for_none _ _ _) Hnone).
      rewrite dues_of_add_due, Hnone, Z.eqb_refl, String.eqb_refl.
      reflexivity. }
    rewrite fake_fold_keeps; [exact Hstep|]. rewrite Hstep. discriminate.
  - destruct Hin as [Heq|Hin]; [contradiction|].
    apply IH; [exact Hin|]. now rewrite dues_of_fake_for_other.
Qed.

Lemma faked_for_more t a ms d : faked_for t ms d -> faked_for t (a :: ms) d.
Proof.
  intros [Ht [Hm Hrest]]. split; [exact Ht|]. split; [now right | exact Hrest].
Qed.

Lemma fake_fold_new_rows t ms st :
  exists new,
    rent_dues (fold_left (fake_for (Tenant.id t) (Tenant.monthly_rent t)) ms st)
    = rent_dues st ++ new
    /\ (List.length new <= List.length ms)%nat
    /\ Forall (faked_for t ms) new.
Proof.
  revert st. induction ms as [|a ms IH]; intros st.
  - exists []. simpl. rewrite app_nil_r. repeat split; [lia | constructor].
  - simpl fold_left.
    destruct (IH (fake_for (Tenant.id t) (Tenant.monthly_rent t) st a))
      as [new1 [Hrows [Hlen Hall]]].
    assert (Hall' : Forall (faked_for t (a :: ms)) new1).
    { eapply Forall_impl; [|exact Hall]. intros d. apply faked_for_more. }
    unfold fake_for in Hrows |- *.
    destruct (due_for (Tenant.id t) a st).
    + exists new1. repeat split; [exact Hrows | simpl; lia | exact Hall'].
    + exists (RentDue.mk (next_id (map RentDue.id (rent_dues st)))
                         (Tenant.id t) a (Tenant.monthly_rent t) "unpaid" None
              :: new1).
      split; [|split].
      * rewrite Hrows. simpl. now rewrite <- app_assoc.
      * simpl. lia.
      * constructor; [|exact Hall'].
        repeat split. now left.
Qed.

Lemma fake_fold_covered tid rent ms st :
  (forall m, In m ms -> dues_of tid m st <> []) ->
  fold_left (fake_for tid rent) ms st = st.
Proof.
  induction ms as [|a ms IH]; intros H; simpl; [reflexivity|].
  rewrite fake_for_present.
  - apply IH. intros m Hm. apply H. now right.
  - apply due_for_present, H. now left.
Qed.

(** X12: what the fake-months route writes. In a reachable store, for a
    tenant that exists and any list of months, the route (which asks for no
    session) answers with its text, leaves the tenant table and the
    existing dues alone, and appends at most one row per listed month, each
    for that tenant, unpaid, with the tenant's monthly rent. Afterwards the
    tenant has exactly one due for each listed month, a month without entry
    got a new one even when the list names it twice, and running the route
    again with the same list changes nothing. *)
Theorem fake_months_route (st : db) (tid : Z) (t : Tenant.t)
    (ms : list string) :
  reachable st -> get_tenant tid st = Some t ->
  fst (generate_fake_3_months tid ms st)
  = Body ("Fake 3 months due added for tenant " ++ Tenant.name t)%string
  /\ tenants (snd (generate_fake_3_months tid ms st)) = tenants st
  /\ (exists new,
        rent_dues (snd (generate_fake_3_months tid ms st))
        = rent_dues st ++ new
        /\ (List.length new <= List.length ms)%nat
        /\ Forall (faked_for t ms) new)
  /\ (forall m, In m ms ->
        List.length (dues_of tid m (snd (generate_fake_3_months tid ms st)))
        = 1%nat)
  /\ (forall m, In m ms -> dues_of tid m st = [] ->
        exists due_id,
          dues_of tid m (snd (generate_fake_3_months tid ms st))
          = [RentDue.mk due_id tid m (Tenant.monthly_rent t) "unpaid" None])
  /\ snd (generate_fake_3_months tid ms
            (snd (generate_fake_3_months tid ms st)))
     = snd (generate_fake_3_months tid ms st).
Proof.
  intros Hreach Hget.
  assert (Hid : Tenant.id t = tid).
  { unfold get_tenant in Hget. apply find_some in Hget. now apply Z.eqb_eq. }
  pose proof (reach_step st (GenerateFake3Months tid ms) Hreach) as Hreach'.
  simpl handle in Hreach'.
  pose proof (inv_month _ (reachable_invariant _ Hreach')) as Hmu.
  revert Hmu. unfold generate_fake_3_months. rewrite Hget. simpl fst.
  simpl snd. intros Hmu.
  set (st' := fold_left (fake_for tid (Tenant.monthly_rent t)) ms st) in *.
  assert (Hten : tenants st' = tenants st) by apply tenants_fake_fold.
  assert (Hone : forall m, In m ms ->
                   List.length (dues_of tid m st') = 1%nat).
  { intros m Hm. specialize (Hmu tid m).
    destruct (dues_of tid m st) as [|x l] eqn:Hd.
    - destruct (fake_fold_creates tid (Tenant.monthly_rent t) ms st m Hm Hd)
        as [due_id Hnew].
      fold st' in Hnew. now rewrite Hnew.
    - assert (Hkeep : dues_of tid m st' = x :: l).
      { unfold st'. rewrite fake_fold_keeps; rewrite Hd;
          [reflexivity | discriminate]. }
      rewrite Hkeep in Hmu |- *. simpl in Hmu |- *. lia. }
  split; [reflexivity|]. split; [exact Hten|].
  split; [|split; [exact Hone | split]].
  - unfold st'. rewrite <- Hid. apply fake_fold_new_rows.
  - intros m Hm Hd. apply fake_fold_creates; assumption.
  - assert (Hget' : get_tenant tid st' = Some t).
    { unfold get_tenant. rewrite Hten. exact Hget. }
    rewrite Hget'. simpl. apply fake_fold_covered.
    intros m Hm Hnil. specialize (Hone m Hm). rewrite Hnil in Hone.
    discriminate.
Qed.

(** The route in March 2025 for Ann, who has no dues: two rows. *)
Lemma fake_months_route_witness :
  rent_dues (snd (generate_fake_3_months 1 ["2025-01"; "2024-12"; "2024-12"]
                    one_tenant))
  = [RentDue.mk 1 1 "2025-01" 5000%float "unpaid" None;
     RentDue.mk 2 1 "2024-12" 5000%float "unpaid" None]
  /\ (exists due_id,
        dues_of 1 "2024-12"
          (snd (generate_fake_3_months 1 ["2025-01"; "2024-12"; "2024-12"]
                  one_tenant))
        = [RentDue.mk due_id 1 "2024-12" 5000%float "unpaid" None])
  /\ snd (generate_fake_3_months 1 ["2025-01"; "2024-12"; "2024-12"]
            (snd (generate_fake_3_months 1 ["2025-01"; "2024-12"; "2024-12"]
                    one_tenant)))
     = snd (generate_fake_3_months 1 ["2025-01"; "2024-12"; "2024-12"]
              one_tenant).
Proof.
  pose proof (fake_months_route one_tenant 1%Z ann
                ["2025-01"; "2024-12"; "2024-12"]%string
                (reach_step _ (AddTenant (Some 1%Z) (Some ann_form)) reach_init)
                eq_refl) as [_ [_ [_ [_ [Hnew Hagain]]]]].
  split; [reflexivity|]. split; [|exact Hagain].
  apply Hnew; [right; left; reflexivity | reflexivity].
Defined.

(** ** Quoting *)

Section Quoting.
Local Open Scope string_scope.
Import PyStr.

Lemma append_same_head (a x y : string) : a ++ x = a ++ y -> x = y.
Proof.
  induction a as [|c a IH]; simpl; intros H; [exact H|].
  inversion H. now apply IH.
Qed.

Lemma append_same_tail_length (a b x y : string) :
  String.length a = String.length b -> a ++ x = b ++ y -> a = b /\ x = y.
Proof.
  revert b. induction a as [|c a IH]; intros [|d b]; simpl; intros Hl H;
    try discriminate.
  - now split.
  - inversion H. subst. destruct (IH b) as [-> ->]; [lia | assumption |].
    now split.
Qed.

(** X13: quoting loses nothing. Decoding the quoted text gives the text
    back, so two different texts have different quoted forms, and the links
    that [build_whatsapp_link] makes for one phone number and two different
    messages are different. *)
Theorem quote_is_lossless :
  (forall s, unquote (quote s) = s)
  /\ (forall s1 s2, quote s1 = quote s2 -> s1 = s2)
  /\ forall phone m1 m2,
       build_whatsapp_link phone m1 = build_whatsapp_link phone m2 -> m1 = m2.
Proof.
  assert (Hinj : forall s1 s2, quote s1 = quote s2 -> s1 = s2).
  { intros s1 s2 H. rewrite <- (unquote_quote s1), <- (unquote_quote s2).
    now rewrite H. }
  split; [exact unquote_quote|]. split; [exact Hinj|].
  intros phone m1 m2. rewrite !build_whatsapp_link_normalized. intros H.
  apply Hinj.
  apply append_same_head in H. apply append_same_head in H.
  now apply append_same_head in H.
Qed.

Lemma quote_is_lossless_witness :
  unquote (quote ("Total Due Amount: ₹15000.0" ++ nl))
  = "Total Due Amount: ₹15000.0" ++ nl
  /\ (build_whatsapp_link "9876543210" "a b"
      = build_whatsapp_link "9876543210" "a%20b" -> "a b" = "a%20b").
Proof.
  split.
  - apply (proj1 quote_is_lossless).
  - apply (proj2 (proj2 quote_is_lossless)).
Defined.

Lemma quote_app (a b : string) : quote (a ++ b) = quote a ++ quote b.
Proof.
  induction a as [|c a IH]; [reflexivity|].
  change (quote (String c a ++ b)) with (quote_byte c ++ quote (a ++ b)).
  change (quote (String c a)) with (quote_byte c ++ quote a).
  now rewrite IH, append_assoc.
Qed.

Lemma length_append (a b : string) :
  String.length (a ++ b) = (String.length a + String.length b)%nat.
Proof. induction a as [|c a IH]; simpl; [reflexivity | now rewrite IH]. Qed.

Lemma quote_length (s : string) :
  String.length (quote s)
  = (String.length s + 2 * List.length (escaped_bytes s))%nat.
Proof.
  unfold escaped_bytes. induction s as [|c s IH]; [reflexivity|].
  change (quote (String c s)) with (quote_byte c ++ quote s).
  rewrite length_append, IH. simpl list_ascii_of_string. simpl filter.
  unfold quote_byte. destruct (is_safe c); simpl; lia.
Qed.

(** X14: what quoting keeps. [quote] works byte by byte, so the quoted
    form of a concatenation is the concatenation of the quoted forms; it
    makes the text longer by two characters for each byte that is not
    unreserved; and it returns a text unchanged exactly when all its bytes
    are letters, digits or one of [_ . - ~ /]. *)
Theorem quote_keeps_unreserved_text :
  (forall a b, quote (a ++ b) = quote a ++ quote b)
  /\ (forall s, String.length (quote s)
                = (String.length s + 2 * List.length (escaped_bytes s))%nat)
  /\ forall s, quote s = s
               <-> forallb is_safe (list_ascii_of_string s) = true.
Proof.
  split; [exact quote_app|]. split; [exact quote_length|].
  intros s. split.
  - intros H. pose proof (quote_length s) as Hl. rewrite H in Hl.
    assert (Hnone : escaped_bytes s = [])
      by (destruct (escaped_bytes s); [reflexivity | simpl in Hl; lia]).
    apply forallb_forall. intros c Hc.
    destruct (is_safe c) eqn:Hs; [reflexivity|].
    assert (Hin : In c (escaped_bytes s)).
    { unfold escaped_bytes. apply filter_In. now rewrite Hs. }
    rewrite Hnone in Hin. destruct Hin.
  - induction s as [|c s IH]; [reflexivity|].
    simpl. intros H. apply andb_true_iff in H. destruct H as [Hc Hs].
    unfold quote_byte. rewrite Hc. simpl. now rewrite IH.
Qed.

Lemma quote_keeps_unreserved_text_witness :
  quote "919876543210" = "919876543210"
  /\ (quote "Room No: A1" = "Room No: A1" ->
      forallb is_safe (list_ascii_of_string "Room No: A1") = true).
Proof.
  split.
  - apply (proj2 (proj2 (proj2 quote_keeps_unreserved_text) "919876543210")).
    reflexivity.
  - apply (proj1 (proj2 (proj2 quote_keeps_unreserved_text) "Room No: A1")).
Defined.

End Quoting.

(** ** Stripping *)

Section Stripping.
Import PyStr.

Lemma strips_cut f l cut l' :
  f l = f l' -> l = cut ++ l' -> strips f l' -> strips f l.
Proof.
  intros Hf -> [[cut' Hcut] Hhead]. unfold strips. rewrite Hf.
  split; [|exact Hhead].
  exists (cut ++ cut'). now rewrite <- app_assoc, <- Hcut.
Qed.

Lemma strips_stop f c l :
  f (c :: l) = c :: l -> is_space1 c = false -> strips f (c :: l).
Proof.
  intros Hf Hc. unfold strips. rewrite Hf. split; [now exists [] |].
  intros c' r H. inversion H. now subst.
Qed.

Lemma strips_nil f : f [] = [] -> strips f [].
Proof.
  intros Hf. unfold strips. rewrite Hf. split; [now exists [] | discriminate].
Qed.

Ltac strips_by unfolding IH :=
  match goal with
  | |- strips _ [] => apply strips_nil; reflexivity
  | |- strips _ (?c1 :: ?r1) =>
    destruct (is_space1 c1) eqn:?H1;
    [ apply (strips_cut _ _ [c1] r1);
      [rewrite unfolding, H1; reflexivity | reflexivity | apply IH; simpl in *; lia]
    | destruct r1 as [|?c2 ?r2];
      [ apply strips_stop; [rewrite unfolding, H1; reflexivity | exact H1] | ] ]
  end.

Lemma lstrip_strips (n : nat) (l : list ascii) :
  (List.length l <= n)%nat -> strips lstrip l.
Proof.
  revert l. induction n as [|n IH]; intros l Hn.
  - destruct l; [apply strips_nil; reflexivity | simpl in Hn; lia].
  - destruct l as [|c1 r1]; [apply strips_nil; reflexivity|].
    strips_by lstrip_cons IH.
    destruct (is_space2 c1 c2) eqn:H2.
    { apply (strips_cut _ _ [c1; c2] r2);
        [now rewrite lstrip_cons, H1, H2 | reflexivity
        | apply IH; simpl in *; lia]. }
    destruct r2 as [|c3 r3];
      [apply strips_stop; [now rewrite lstrip_cons, H1, H2 | exact H1]|].
    destruct (is_space3 c1 c2 c3) eqn:H3.
    { apply (strips_cut _ _ [c1; c2; c3] r3);
        [now rewrite lstrip_cons, H1, H2, H3 | reflexivity
        | apply IH; simpl in *; lia]. }
    apply strips_stop; [now rewrite lstrip_cons, H1, H2, H3 | exact H1].
Qed.

Lemma rstrip_rev_strips (n : nat) (l : list ascii) :
  (List.length l <= n)%nat -> strips rstrip_rev l.
Proof.
  revert l. induction n as [|n IH]; intros l Hn.
  - destruct l; [apply strips_nil; reflexivity | simpl in Hn; lia].
  - destruct l as [|c1 r1]; [apply strips_nil; reflexivity|].
    strips_by rstrip_rev_cons IH.
    destruct (is_space2 c2 c1) eqn:H2.
    { apply (strips_cut _ _ [c1; c2] r2);
        [now rewrite rstrip_rev_cons, H1, H2 | reflexivity
        | apply IH; simpl in *; lia]. }
    destruct r2 as [|c3 r3];
      [apply strips_stop; [now rewrite rstrip_rev_cons, H1, H2 | exact H1]|].
    destruct (is_space3 c3 c2 c1) eqn:H3.
    { apply (strips_cut _ _ [c1; c2; c3] r3);
        [now rewrite rstrip_rev_cons, H1, H2, H3 | reflexivity
        | apply IH; simpl in *; lia]. }
    apply strips_stop; [now rewrite rstrip_rev_cons, H1, H2, H3 | exact H1].
Qed.

Lemma string_of_list_ascii_app (a b : list ascii) :
  string_of_list_ascii (a ++ b)
  = (string_of_list_ascii a ++ string_of_list_ascii b)%string.
Proof. induction a as [|c a IH]; simpl; [reflexivity | now rewrite IH]. Qed.

(** X15: what [strip] returns. The stripped text is a contiguous part of
    the text, [s = before ++ strip s ++ after], and it neither begins nor
    ends with a one-byte whitespace character (space, tab, line feed and
    the like); so neither does the number that [build_whatsapp_link] puts
    into the link begin with one. *)
Theorem strip_returns_inner_part (s : string) :
  (exists before after, s = (before ++ strip s ++ after)%string)
  /\ (forall c r, strip s = String c r -> is_space1 c = false)
  /\ (forall r c, strip s = (r ++ String c EmptyString)%string ->
        is_space1 c = false)
  /\ forall c r, normalized s = String c r -> is_space1 c = false.
Proof.
  set (l := list_ascii_of_string s).
  destruct (lstrip_strips (List.length l) l (Nat.le_refl _))
    as [[before Hbefore] Hhead].
  destruct (rstrip_rev_strips (List.length (rev (lstrip l))) (rev (lstrip l))
              (Nat.le_refl _)) as [[after Hafter] Hlast].
  assert (Hl : lstrip l = rstrip (lstrip l) ++ rev after).
  { unfold rstrip. rewrite <- rev_app_distr, <- Hafter.
    now rewrite rev_involutive. }
  assert (Hfirst : forall c r, strip s = String c r -> is_space1 c = false).
  { intros c r H. unfold strip in H. fold l in H.
    apply (f_equal list_ascii_of_string) in H.
    rewrite list_ascii_of_string_of_list_ascii in H. simpl in H.
    rewrite H in Hl. simpl in Hl. now apply (Hhead c _ Hl). }
  split; [|split; [exact Hfirst | split]].
  - exists (string_of_list_ascii before), (string_of_list_ascii (rev after)).
    unfold strip. fold l.
    rewrite <- !string_of_list_ascii_app, <- Hl, <- Hbefore.
    unfold l. now rewrite string_of_list_ascii_of_string.
  - intros r c H. unfold strip in H. fold l in H.
    apply (f_equal list_ascii_of_string) in H.
    rewrite list_ascii_of_string_of_list_ascii, list_ascii_of_append in H.
    simpl in H. unfold rstrip in H.
    apply (f_equal (@rev ascii)) in H.
    rewrite rev_involutive, rev_app_distr in H. simpl in H.
    now apply (Hlast c _ H).
  - intros c r. unfold normalized.
    destruct (startswith (strip s) "91"); [apply Hfirst|].
    simpl. intros H. inversion H. reflexivity.
Qed.

End Stripping.

Lemma strip_returns_inner_part_witness :
  PyStr.is_space1 "9" = false /\ PyStr.is_space1 "0" = false.
Proof.
  pose proof (strip_returns_inner_part "  9876543210 ") as [_ [Hfirst [Hlast _]]].
  split.
  - apply (Hfirst "9"%char "876543210"%string). reflexivity.
  - apply (Hlast "987654321"%string "0"%char). reflexivity.
Defined.

(** ** The dashboard *)

Lemma dashboard_turn_step float_repr st total count rows t :
  dashboard_turn float_repr st (total, count, rows) t
  = (py_add total (total_of st t),
     if has_due st t then S count else count,
     if has_due st t then rows ++ [entry_of float_repr st t] else rows).
Proof.
  unfold dashboard_turn, has_due, total_of, entry_of, total_of.
  destruct (calculate_due_for_tenant (Tenant.id t) st) as [[n s] D].
  cbn [fst snd]. now destruct (0 <? n)%nat.
Qed.

Lemma dashboard_fold float_repr st l total count rows :
  fold_left (dashboard_turn float_repr st) l (total, count, rows)
  = (fold_left py_add (map (total_of st) l) total,
     (count + List.length (filter (has_due st) l))%nat,
     rows ++ map (entry_of float_repr st) (filter (has_due st) l)).
Proof.
  revert total count rows. induction l as [|t l IH]; intros total count rows.
  - simpl. now rewrite Nat.add_0_r, app_nil_r.
  - cbn [fold_left]. rewrite dashboard_turn_step, IH.
    cbn [map filter]. destruct (has_due st t).
    + simpl. rewrite <- app_assoc. simpl. now rewrite Nat.add_succ_r.
    + reflexivity.
Qed.

(** X16: the rows of the dashboard. The loop of [dashboard] makes one
    entry for each tenant with at least one unpaid due, in table order, and
    counts as many tenants with dues as there are entries; the grand total
    adds the totals of all tenants. Every entry carries the result of the
    due calculator for its tenant and a reminder link, never [None]: the
    link [build_whatsapp_link] makes from the tenant's phone and the
    reminder message. *)
Theorem dashboard_entries (float_repr : float -> string) (st : db) :
  dashboard_loop float_repr st
  = (fold_left py_add (map (total_of st) (tenants st)) (PyNum.PyInt 0),
     List.length (filter (has_due st) (tenants st)),
     map (entry_of float_repr st) (filter (has_due st) (tenants st)))
  /\ forall e,
       In e (snd (dashboard_loop float_repr st)) ->
       In (e_tenant e) (tenants st)
       /\ (1 <= e_months_due e)%nat
       /\ (exists D, calculate_due_for_tenant (Tenant.id (e_tenant e)) st
                     = (e_months_due e, e_total_due e, D))
       /\ e_whatsapp_link e
          = Some (build_whatsapp_link (Tenant.phone (e_tenant e))
                    (reminder_message float_repr (e_tenant e)
                       (e_months_due e) (e_total_due e))).
Proof.
  assert (Hloop : dashboard_loop float_repr st
    = (fold_left py_add (map (total_of st) (tenants st)) (PyNum.PyInt 0),
       List.length (filter (has_due st) (tenants st)),
       map (entry_of float_repr st) (filter (has_due st) (tenants st)))).
  { unfold dashboard_loop. now rewrite dashboard_fold. }
  split; [exact Hloop|].
  rewrite Hloop. cbn [snd]. intros e He.
  apply in_map_iff in He. destruct He as [t [<- Ht]].
  apply filter_In in Ht. destruct Ht as [Ht Hdue].
  unfold has_due in Hdue. unfold entry_of, total_of.
  unfold get_whatsapp_reminder_link.
  destruct (calculate_due_for_tenant (Tenant.id t) st) as [[n s] D] eqn:Hc.
  cbn [fst snd e_tenant e_months_due e_total_due e_whatsapp_link] in *.
  apply Nat.ltb_lt in Hdue.
  split; [exact Ht|]. split; [lia|]. split; [now exists D|].
  destruct n as [|n]; [lia | reflexivity].
Qed.

Lemma dashboard_entries_witness :
  In ann (tenants ledger)
  /\ (1 <= 3)%nat
  /\ (exists D, calculate_due_for_tenant 1 ledger
                = (3%nat, PyNum.PyFloat 15000%float, D))
  /\ get_whatsapp_reminder_link (fun _ => "15000.0"%string) ann ledger
     = Some (build_whatsapp_link "9876543210"
               (reminder_message (fun _ => "15000.0"%string) ann 3
                  (PyNum.PyFloat 15000%float))).
Proof.
  apply (proj2 (dashboard_entries (fun _ => "15000.0"%string) ledger)
           (entry_of (fun _ => "15000.0"%string) ledger ann)).
  left. reflexivity.
Defined.

(** ** Month keys *)

Section MonthKeys.
Local Open Scope string_scope.

Lemma to_int_not_nil (z : Z) :
  Z.to_int z <> Decimal.Pos Decimal.Nil /\ Z.to_int z <> Decimal.Neg Decimal.Nil.
Proof.
  destruct z as [|p|p]; simpl; split; try discriminate;
    intros E; inversion E as [Hp];
    exact (DecimalPos.Unsigned.to_uint_nonnil p Hp).
Qed.

Lemma str_int_inj (z1 z2 : Z) : PyStr.str_int z1 = PyStr.str_int z2 -> z1 = z2.
Proof.
  unfold PyStr.str_int. intros H. apply DecimalZ.to_int_inj.
  apply (f_equal NilZero.int_of_string) in H.
  rewrite !NilZero.isi in H by apply to_int_not_nil.
  now inversion H.
Qed.

Lemma four_digit_years (y : Z) :
  (1000 <= y <= 9999)%Z -> String.length (PyStr.str_int y) = 4%nat.
Proof.
  intros Hy.
  assert (Hall : forallb (fun k => (String.length
                                      (PyStr.str_int (1000 + Z.of_nat k))
                                    =? 4)%nat) (seq 0 (Z.to_nat 9000))
                = true)
    by (vm_compute; reflexivity).
  rewrite forallb_forall in Hall.
  specialize (Hall (Z.to_nat (y - 1000))).
  rewrite in_seq in Hall.
  replace (1000 + Z.of_nat (Z.to_nat (y - 1000)))%Z with y in Hall by lia.
  apply Nat.eqb_eq, Hall. lia.
Qed.

Lemma year_not_padded (y : Z) :
  (1000 <= y <= 9999)%Z -> Date.zero_padded 4 y = PyStr.str_int y.
Proof.
  intros Hy. unfold Date.zero_padded. now rewrite (four_digit_years y Hy).
Qed.

Lemma two_digit_months (m1 m2 : Z) :
  (1 <= m1 <= 12)%Z -> (1 <= m2 <= 12)%Z ->
  String.length (Date.zero_padded 2 m1) = 2%nat
  /\ (Date.zero_padded 2 m1 = Date.zero_padded 2 m2 -> m1 = m2).
Proof.
  intros H1 H2.
  assert (C1 : (m1 = 1 \/ m1 = 2 \/ m1 = 3 \/ m1 = 4 \/ m1 = 5 \/ m1 = 6
                \/ m1 = 7 \/ m1 = 8 \/ m1 = 9 \/ m1 = 10 \/ m1 = 11
                \/ m1 = 12)%Z) by lia.
  assert (C2 : (m2 = 1 \/ m2 = 2 \/ m2 = 3 \/ m2 = 4 \/ m2 = 5 \/ m2 = 6
                \/ m2 = 7 \/ m2 = 8 \/ m2 = 9 \/ m2 = 10 \/ m2 = 11
                \/ m2 = 12)%Z) by lia.
  clear H1 H2.
  repeat (destruct C1 as [->|C1]); try subst m1;
    (split; [reflexivity|]);
    repeat (destruct C2 as [->|C2]); try subst m2;
    intros H; first [reflexivity | vm_compute in H; discriminate H].
Qed.

Lemma dues_of_generate_fold_other_month m l st tid m' :
  m <> m' ->
  dues_of tid m' (fold_left (generate_for m) l st) = dues_of tid m' st.
Proof.
  intros Hne. revert st. induction l as [|a l IH]; intros st; simpl;
    [reflexivity|].
  rewrite IH. unfold generate_for.
  destruct (due_for (Tenant.id a) m st); [reflexivity|].
  rewrite dues_of_add_due. apply String.eqb_neq in Hne.
  rewrite Hne, andb_false_r. apply app_nil_r.
Qed.

(** X17: month keys. For days from the year 1000 on, the key
    [current_month_str] makes has seven characters, and two days have the
    same key exactly when they lie in the same month of the same year. A
    run of the month generator on a day of another month therefore leaves
    the entries of this month as they are. *)
Theorem month_keys_are_distinct (d1 d2 : Date.t) :
  Date.valid d1 -> Date.valid d2 ->
  (1000 <= Date.year d1)%Z -> (1000 <= Date.year d2)%Z ->
  String.length (current_month_str d1) = 7%nat
  /\ (current_month_str d1 = current_month_str d2
      <-> Date.year d1 = Date.year d2 /\ Date.month d1 = Date.month d2)
  /\ ((Date.year d1 <> Date.year d2 \/ Date.month d1 <> Date.month d2) ->
      forall st tid,
        dues_of tid (current_month_str d1)
          (generate_current_month_rent (current_month_str d2) st)
        = dues_of tid (current_month_str d1) st).
Proof.
  destruct d1 as [y1 m1 x1], d2 as [y2 m2 x2].
  unfold Date.valid, current_month_str, Date.strftime_Y_m. simpl.
  intros [Hy1 [Hm1 _]] [Hy2 [Hm2 _]] Ly1 Ly2.
  rewrite !year_not_padded by lia.
  destruct (two_digit_months m1 m2 Hm1 Hm2) as [Hlen Hinj].
  assert (Hiff : PyStr.str_int y1 ++ "-" ++ Date.zero_padded 2 m1
                 = PyStr.str_int y2 ++ "-" ++ Date.zero_padded 2 m2
                 <-> y1 = y2 /\ m1 = m2).
  { split.
    - intros H. apply append_same_tail_length in H.
      + destruct H as [Hy Hm]. split; [now apply str_int_inj|].
        apply Hinj. now inversion Hm.
      + now rewrite !four_digit_years by lia.
    - now intros [-> ->]. }
  split; [|split; [exact Hiff|]].
  - rewrite length_append, four_digit_years by lia. simpl String.length.
    now rewrite Hlen.
  - intros Hne st tid. apply dues_of_generate_fold_other_month.
    intros Heq. destruct (proj1 Hiff (eq_sym Heq)) as [Ey Em].
    destruct Hne as [H|H]; now apply H.
Qed.

Lemma month_keys_are_distinct_witness :
  String.length (current_month_str (Date.mk 2025 1 31)) = 7%nat
  /\ forall st tid,
       dues_of tid (current_month_str (Date.mk 2025 1 31))
         (generate_current_month_rent (current_month_str (Date.mk 2025 2 1)) st)
       = dues_of tid (current_month_str (Date.mk 2025 1 31)) st.
Proof.
  assert (V1 : Date.valid (Date.mk 2025 1 31))
    by (repeat split; vm_compute; discriminate).
  assert (V2 : Date.valid (Date.mk 2025 2 1))
    by (repeat split; vm_compute; discriminate).
  assert (L : (1000 <= 2025)%Z) by lia.
  pose proof (month_keys_are_distinct _ _ V1 V2 L L) as [Hlen [_ Hframe]].
  split; [exact Hlen|]. apply Hframe. right. discriminate.
Defined.

End MonthKeys.
